(** * NBA Edge Finder: the signal engine of [public.py]

    A shallow embedding of the pure and session-state functions of
    [public.py] (price-spike tracker, game-state classifier, tolerance
    bands, confidence scorer, bid calculator, ticker parsing and the
    market-record loop of [fetch_extreme_totals]), with the properties
    of the specification stated over it.

    Conventions of the embedding.
    - Python [int] is [Z]; the numeric arguments are integers (prices in
      cents, scores, strikes), so [int(x)] on them is the identity.
    - Python [None] for an optional number or string is [option].
    - Python [str] is [string]; the texts handled here (tickers, clocks,
      labels) are compared, sliced and searched bytewise, which agrees
      with Python on ASCII input. Non-ASCII label literals are kept as
      their UTF-8 bytes.
    - [datetime.now()] is an explicit argument [now], a count of
      microseconds (the resolution of [datetime]);
      [timedelta(seconds=s)] is [s * 1000000].
    - [st.session_state] is an explicit record threaded through the
      tracker functions.
    - What [requests.get] and [resp.json()] deliver is an explicit
      argument of [fetch_extreme_totals]; a step of its [try] block that
      raises is an [outcome] carrying the text [str(e)]. The numbers of
      the JSON answer (strikes, asks, volumes) are integers. *)

From stdpp Require Import base option list strings gmap pretty sorting.
From Stdlib Require Import ZArith Lia Ascii.

Local Open Scope Z_scope.

(** ** Price spike detection (kill switch) *)

Module Tracker.

(** One stored sample [(t, p)]: timestamp and price. *)
Abbreviation sample := (Z * Z)%type.

(** The two entries of [st.session_state] the tracker owns; [None] is
    "the key is not in the session state yet". *)
Record session_state : Type := SessionState {
  price_history : option (gmap string (list sample));
  spike_alerts : option (gmap string bool)
}.

Definition fresh_session : session_state := SessionState None None.

Definition timedelta (seconds : Z) : Z := seconds * 1000000.

(** [init_price_history]: create either dictionary when it is missing. *)
Definition init_price_history (st : session_state) : session_state :=
  SessionState
    (Some (match price_history st with Some h => h | None => ∅ end))
    (Some (match spike_alerts st with Some a => a | None => ∅ end)).

(** The dictionaries as read after [init_price_history]. *)
Definition history_dict (st : session_state) : gmap string (list sample) :=
  match price_history st with Some h => h | None => ∅ end.

Definition alerts_dict (st : session_state) : gmap string bool :=
  match spike_alerts st with Some a => a | None => ∅ end.

(** [record_price(ticker, price)] at clock reading [now]. *)
Definition record_price (ticker : string) (price now : Z)
    (st : session_state) : session_state :=
  let st := init_price_history st in
  let h := history_dict st in
  let h := match h !! ticker with Some _ => h | None => <[ticker := []]> h end in
  let h := <[ticker := default [] (h !! ticker) ++ [(now, price)]]> h in
  let cutoff := now - timedelta 120 in
  let h := <[ticker :=
    filter (λ s : sample, cutoff < s.1) (default [] (h !! ticker))]> h in
  SessionState (Some h) (spike_alerts st).

(** [check_price_spike(ticker, current_price, threshold_cents,
    window_seconds)] at clock reading [now]; the Python defaults are
    [threshold_cents=5] and [window_seconds=30]. *)
Definition check_price_spike (ticker : string) (current_price : Z)
    (threshold_cents window_seconds : Z) (now : Z)
    (st : session_state) : (bool * Z) * session_state :=
  let st := init_price_history st in
  match history_dict st !! ticker with
  | None => ((false, 0), st)
  | Some hist =>
    let cutoff := now - timedelta window_seconds in
    let old_prices := filter (λ s : sample, s.1 ≤ cutoff) hist in
    match old_prices with
    | [] => ((false, 0), st)
    | oldest :: _ =>
      let oldest_price := oldest.2 in
      let delta := current_price - oldest_price in
      if bool_decide (threshold_cents ≤ delta) then
        ((true, delta),
         SessionState (price_history st)
           (Some (<[ticker := true]> (alerts_dict st))))
      else ((false, delta), st)
    end
  end.

(** [is_spiked(ticker)]: [spike_alerts.get(ticker, False)]. *)
Definition is_spiked (ticker : string) (st : session_state)
    : bool * session_state :=
  let st := init_price_history st in
  (default false (alerts_dict st !! ticker), st).

(** [clear_spike(ticker)]. *)
Definition clear_spike (ticker : string) (st : session_state)
    : session_state :=
  let st := init_price_history st in
  match alerts_dict st !! ticker with
  | Some _ =>
    SessionState (price_history st)
      (Some (<[ticker := false]> (alerts_dict st)))
  | None => st
  end.

(** A call made by the page between two readings of the alert. *)
Inductive call : Type :=
  | RecordPrice (ticker : string) (price now : Z)
  | CheckPriceSpike (ticker : string) (current_price : Z)
      (threshold_cents window_seconds now : Z)
  | IsSpiked (ticker : string).

Definition run_call (c : call) (st : session_state) : session_state :=
  match c with
  | RecordPrice ticker price now => record_price ticker price now st
  | CheckPriceSpike ticker p th w now =>
    (check_price_spike ticker p th w now st).2
  | IsSpiked ticker => (is_spiked ticker st).2
  end.

Definition run_calls (cs : list call) (st : session_state) : session_state :=
  foldl (λ st c, run_call c st) st cs.

(** The stored history of a ticker, empty when it has none. *)
Definition history_of (ticker : string) (st : session_state) : list sample :=
  default [] (history_dict st !! ticker).

(** The "old" part of a ticker's history at [now]: the samples
    [check_price_spike] keeps in [old_prices]. *)
Definition old_samples (ticker : string) (window_seconds now : Z)
    (st : session_state) : list sample :=
  filter (λ s : sample, s.1 ≤ now - timedelta window_seconds)
    (history_of ticker st).

(** The state [check_price_spike] leaves when it raises the alert. *)
Definition with_alert (ticker : string) (st : session_state) : session_state :=
  SessionState (Some (history_dict st))
    (Some (<[ticker := true]> (alerts_dict st))).

(** The alert of [ticker] is raised in [st]. *)
Definition alerted (ticker : string) (st : session_state) : Prop :=
  alerts_dict st !! ticker = Some true.

(** Samples in ascending timestamp order, as [record_price] stores them
    under a clock that does not run backwards. *)
Definition ascending (l : list sample) : Prop :=
  StronglySorted (λ a b : sample, a.1 ≤ b.1) l.

(** The history of scenario 5 of the specification: ticker ["T1"] at
    price 60 at time 0, then at 67 thirty-one seconds later. *)
Definition scenario_state : session_state :=
  record_price "T1" 67 31000000 (record_price "T1" 60 0 fresh_session).

(** Later traffic on the page: the price drops, is checked again, and a
    sample arrives long after the whole history has aged out. *)
Definition scenario_calls : list call :=
  [RecordPrice "T1" 50 40000000;
   CheckPriceSpike "T1" 50 5 30 40000000;
   IsSpiked "T1";
   RecordPrice "T2" 70 41000000;
   RecordPrice "T1" 48 500000000;
   CheckPriceSpike "T1" 48 5 30 500000000].

End Tracker.

(** ** The string operations of Python the page uses *)

Module PyStr.

(** [s.startswith(p)]. *)
Fixpoint starts_with (p s : string) : bool :=
  match p, s with
  | EmptyString, _ => true
  | String a p', String b s' => if decide (a = b) then starts_with p' s' else false
  | String _ _, EmptyString => false
  end.

(** [sub in s]. *)
Fixpoint contains (sub s : string) : bool :=
  starts_with sub s ||
  match s with
  | EmptyString => false
  | String _ s' => contains sub s'
  end.

(** [s.split(sep)] for a one-character separator: the pieces between the
    separators, always at least one piece. *)
Fixpoint split (sep : ascii) (s : string) : list string :=
  match s with
  | EmptyString => [EmptyString]
  | String c s' =>
    if decide (c = sep) then EmptyString :: split sep s'
    else match split sep s' with
         | piece :: pieces => String c piece :: pieces
         | [] => [String c EmptyString]
         end
  end.

(** [s[i:j]] for [0 <= i <= j]; like Python it clips at the end of [s]. *)
Definition slice (i j : nat) (s : string) : string :=
  String.substring i (j - i) s.

(** [s[i:]]. *)
Definition slice_from (i : nat) (s : string) : string :=
  String.substring i (String.length s - i) s.

Definition upper_char (c : ascii) : ascii :=
  let n := Ascii.nat_of_ascii c in
  if (97 <=? n)%nat && (n <=? 122)%nat then Ascii.ascii_of_nat (n - 32) else c.

(** [s.upper()] on ASCII text. *)
Fixpoint upper (s : string) : string :=
  match s with
  | EmptyString => EmptyString
  | String c s' => String (upper_char c) (upper s')
  end.

(** [d.get(k, dflt)] on a dictionary literal kept as its list of items. *)
Fixpoint dict_get (d : list (string * string)) (k dflt : string) : string :=
  match d with
  | [] => dflt
  | (k', v) :: d' => if decide (k' = k) then v else dict_get d' k dflt
  end.

(** [d[k] = v] on an insertion-ordered dictionary: an existing key keeps
    its place, a new key goes last. *)
Fixpoint dict_set (k v : string) (d : list (string * string))
    : list (string * string) :=
  match d with
  | [] => [(k, v)]
  | (k', v') :: d' =>
    if decide (k' = k) then (k, v) :: d' else (k', v') :: dict_set k v d'
  end.

Definition is_digit (c : ascii) : bool :=
  let n := Ascii.nat_of_ascii c in (48 <=? n)%nat && (n <=? 57)%nat.

(** The value of a plain run of decimal digits; [None] when the text is
    empty or holds anything else. *)
Fixpoint digits_value (acc : Z) (s : string) : option Z :=
  match s with
  | EmptyString => Some acc
  | String c s' =>
    if is_digit c
    then digits_value (10 * acc + Z.of_nat (Ascii.nat_of_ascii c - 48)) s'
    else None
  end.

(** [int(s)] restricted to plain decimal texts such as ["11"] or ["07"]. *)
Definition int_of_decimal (s : string) : option Z :=
  match s with
  | EmptyString => None
  | _ => digits_value 0 s
  end.

(** [int(float(s))] restricted to short plain decimal texts with an
    optional fraction, such as ["42"] or ["05.3"] (at most four digits
    before the point and three after it, where the conversion to a float
    cannot change the integer part): the integer part. *)
Definition int_of_float_decimal (s : string) : option Z :=
  match split "."%char s with
  | [whole] =>
    if (String.length whole <=? 4)%nat then int_of_decimal whole else None
  | [whole; frac] =>
    if (String.length whole <=? 4)%nat && (String.length frac <=? 3)%nat then
      match int_of_decimal whole, int_of_decimal frac with
      | Some n, Some _ => Some n
      | _, _ => None
      end
    else None
  | _ => None
  end.

End PyStr.

(** ** Recommended bid calculator *)

(** The result triple [(bid, label, explanation)]; a [None] bid is
    Python's [None]. *)
Definition recommendation : Type := option Z * string * string.

Definition bid_of (r : recommendation) : option Z := r.1.1.
Definition label_of (r : recommendation) : string := r.1.2.

(** Truth value of an optional integer: [None] and [0] are false. *)
Definition truthy (x : option Z) : bool :=
  match x with
  | Some v => negb (v =? 0)
  | None => false
  end.

(** [q1_total >= 55], read only when [q1_total] is a number. *)
Definition at_least (n : Z) (x : option Z) : bool :=
  match x with
  | Some v => n <=? v
  | None => false
  end.

(** [calculate_recommended_bid(no_ask, game_state, q1_total, is_spiked,
    q1_lock_imminent)]. *)
Definition calculate_recommended_bid (no_ask : Z) (game_state : string)
    (q1_total : option Z) (is_spiked q1_lock_imminent : bool)
    : recommendation :=
  if is_spiked then
    (None, "🛑 DO NOT BID", "Market moved too fast — wait for cooldown")
  else if decide (game_state = "pregame") then
    let bid := Z.max (no_ask - 10) 60 in
    (Some bid, "Patient Pregame Bid", "Let price come to you — don't chase")
  else if decide (game_state = "live_q1") then
    if q1_lock_imminent then
      let bid := Z.min (no_ask - 5) 75 in
      (Some bid, "Early Live Bid", "Q1 lock-in forming — tighten if desired")
    else
      let bid := Z.max (no_ask - 8) 60 in
      (Some bid, "Live Q1 Bid", "Waiting for Q1 end — park conservatively")
  else if decide (game_state = "post_q1") then
    if truthy q1_total && at_least 55 q1_total then
      (None, "🚫 NO TRADE", "Q1 too high — skip this game")
    else if no_ask <=? 75 then
      (None, "✅ ASK ACCEPTABLE",
       "Lift ask at " +:+ pretty no_ask +:+ "¢ if desired")
    else
      let bid := no_ask - 3 in
      (Some bid, "Post-Q1 Value Bid",
       "Information edge confirmed — tight spread OK")
  else (Some (Z.max (no_ask - 10) 60), "Default Bid", "Conservative parking").

(** ** Game state classifier *)

(** One entry of the live-score dictionary, as [fetch_espn_live_scores]
    and [get_live_game_data] build it. *)
Record live_game : Type := LiveGame {
  lg_away_team : string;
  lg_home_team : string;
  lg_away_score : Z;
  lg_home_score : Z;
  lg_total : Z;
  lg_status : string;
  lg_quarter : string;
  lg_clock : string;
  lg_period : Z
}.

Definition STATUS_SCHEDULED : string := "🟡 SCHEDULED".

Section Classifier.

(** The two conversions of Python the clock parse relies on:
    [py_int s] is [int(s)] and [py_int_of_float s] is [int(float(s))],
    each [None] when Python raises. *)
Variable py_int : string → option Z.
Variable py_int_of_float : string → option Z.

(** The seconds left on the clock as the [try] body computes them from a
    text that holds a colon; [None] when the body raises (the unpacking
    of [clock.split(':')] needs exactly two pieces, and both
    conversions must succeed). *)
Definition clock_total_secs (clock : string) : option Z :=
  match PyStr.split ":"%char clock with
  | [mins; secs] =>
    m ← py_int mins;
    s ← py_int_of_float secs;
    Some (m * 60 + s)
  | _ => None
  end.

(** The [try] body: the value of [q1_lock_imminent] when it completes,
    [None] when it raises. *)
Definition try_q1_lock (clock : string) (total : Z) : option bool :=
  if PyStr.contains ":" clock then
    total_secs ← clock_total_secs clock;
    Some (bool_decide (total_secs ≤ 75 ∧ total < 50))
  else Some false.

(** [get_game_state(live_data)]: state, early-lock flag, Q1 total.
    [None] stands for a missing or empty [live_data]. The bare [except]
    leaves the flag at its initial [False]. *)
Definition get_game_state (live_data : option live_game)
    : string * bool * option Z :=
  match live_data with
  | None => ("pregame", false, None)
  | Some d =>
    let period := lg_period d in
    let quarter := lg_quarter d in
    let clock := lg_clock d in
    let total := lg_total d in
    let q1_lock_imminent :=
      if bool_decide (period = 1) && negb (PyStr.contains "End" quarter)
      then default false (try_q1_lock clock total)
      else false in
    if bool_decide (period = 0) || bool_decide (lg_status d = STATUS_SCHEDULED)
    then ("pregame", false, None)
    else if bool_decide (period = 1) && PyStr.contains "End" quarter
    then ("post_q1", false, Some total)
    else if bool_decide (period = 1)
    then ("live_q1", q1_lock_imminent, Some total)
    else if bool_decide (1 < period)
    then ("post_q1", false, Some total)
    else ("pregame", false, None)
  end.

End Classifier.

(** ** Ticker parsing *)

Definition MONTHS : list (string * string) :=
  [("JAN", "01"); ("FEB", "02"); ("MAR", "03"); ("APR", "04");
   ("MAY", "05"); ("JUN", "06"); ("JUL", "07"); ("AUG", "08");
   ("SEP", "09"); ("OCT", "10"); ("NOV", "11"); ("DEC", "12")].

(** [parse_game_date(game_code)]; [None] is the value of the [except]
    branch. Slicing a string and [dict.get] with a default never raise,
    so on a string the [try] body always completes. *)
Definition parse_game_date (game_code : string) : option string :=
  let year := "20" +:+ PyStr.slice 0 2 game_code in
  let month_str := PyStr.upper (PyStr.slice 2 5 game_code) in
  let day := PyStr.slice 5 7 game_code in
  Some (year +:+ "-" +:+ PyStr.dict_get MONTHS month_str "01" +:+ "-" +:+ day).

Definition TICKER_ABBREVS : list (string * string) :=
  [("ATL", "Atlanta"); ("BOS", "Boston"); ("BRO", "Brooklyn");
   ("BKN", "Brooklyn"); ("CHA", "Charlotte"); ("CHI", "Chicago");
   ("CLE", "Cleveland"); ("DAL", "Dallas"); ("DEN", "Denver");
   ("DET", "Detroit"); ("GSW", "Golden State"); ("GS", "Golden State");
   ("HOU", "Houston"); ("IND", "Indiana"); ("LAC", "LA Clippers");
   ("LAL", "LA Lakers"); ("MEM", "Memphis"); ("MIA", "Miami");
   ("MIL", "Milwaukee"); ("MIN", "Minnesota"); ("NOP", "New Orleans");
   ("NO", "New Orleans"); ("NYK", "New York"); ("NY", "New York");
   ("OKC", "Oklahoma City"); ("ORL", "Orlando"); ("PHI", "Philadelphia");
   ("PHX", "Phoenix"); ("PHO", "Phoenix"); ("POR", "Portland");
   ("SAC", "Sacramento"); ("SAS", "San Antonio"); ("SA", "San Antonio");
   ("TOR", "Toronto"); ("UTA", "Utah"); ("WAS", "Washington")].

(** [parse_teams_from_ticker(ticker_code)]. *)
Definition parse_teams_from_ticker (ticker_code : string)
    : option string * option string :=
  if (String.length ticker_code <? 12)%nat then (None, None)
  else
    let teams_part := PyStr.slice_from 7 ticker_code in
    let away := PyStr.dict_get TICKER_ABBREVS
      (PyStr.upper (PyStr.slice 0 3 teams_part)) (PyStr.slice 0 3 teams_part) in
    let home := PyStr.dict_get TICKER_ABBREVS
      (PyStr.upper (PyStr.slice 3 6 teams_part)) (PyStr.slice 3 6 teams_part) in
    (Some away, Some home).

(** ** Market records *)

(** How a step of a [try] block ends: with a value, or with an
    exception whose text [str(e)] is [msg]. *)
Inductive outcome (A : Type) : Type :=
  | Returned (a : A)
  | Raised (msg : string).
Arguments Returned {A} a.
Arguments Raised {A} msg.

(** One market of the exchange's JSON answer. An optional number is
    [None] when the key is missing or null. [rm_event_ticker] is [None]
    when the answer carries ["event_ticker": null] (a missing key reads
    as the empty text). Strikes, asks and volumes are JSON integers and
    the ticker is a text. *)
Record raw_market : Type := RawMarket {
  rm_ticker : string;
  rm_event_ticker : option string;
  rm_floor_strike : option Z;
  rm_yes_ask : option Z;
  rm_no_ask : option Z;
  rm_volume : Z
}.

(** One market dictionary as [fetch_extreme_totals] appends it. *)
Record market : Type := Market {
  ticker : string;
  event_ticker : string;
  threshold : Z;
  away_team : option string;
  home_team : option string;
  yes_ask : Z;
  no_ask : Z;
  volume : Z
}.

(** An answer of the exchange: its status code and what [resp.json()]
    gives. [resp_json] is [Raised msg] when [resp.json()] raises,
    [Returned None] when the body carries ["markets": null], and
    [Returned (Some ms)] for a list of markets (a missing key reads as
    the empty list). *)
Record response : Type := Response {
  status_code : Z;
  resp_json : outcome (option (list raw_market))
}.

(** The texts of the two exceptions a null field raises in the loop. *)
Definition NONE_HAS_NO_SPLIT : string :=
  "'NoneType' object has no attribute 'split'".
Definition NONE_NOT_ITERABLE : string := "'NoneType' object is not iterable".

(** [x or 0]. *)
Definition or_zero (x : option Z) : Z :=
  if truthy x then default 0 x else 0.

(** The body of the [for m in ...] loop: the market appended for [m],
    [None] when [m] is skipped, or the exception of
    [event_ticker.split("-")] on a null event ticker. *)
Definition market_of_raw (min_threshold : Z) (today : string)
    (m : raw_market) : outcome (option market) :=
  let floor_strike := rm_floor_strike m in
  if truthy floor_strike && at_least min_threshold floor_strike then
    match rm_event_ticker m with
    | None => Raised NONE_HAS_NO_SPLIT
    | Some event_ticker =>
      Returned
        match PyStr.split "-"%char event_ticker with
        | _ :: game_code :: _ =>
          if decide (parse_game_date game_code = Some today) then
            let '(away, home) := parse_teams_from_ticker game_code in
            let yes_ask := or_zero (rm_yes_ask m) in
            let no_ask := or_zero (rm_no_ask m) in
            let no_ask :=
              if (no_ask =? 0) && (0 <? yes_ask) then 1 - yes_ask else no_ask in
            Some (Market (rm_ticker m) event_ticker (default 0 floor_strike)
                    away home yes_ask no_ask (rm_volume m))
          else None
        | _ => None
        end
    end
  else Returned None.

(** The [for] loop: the list [markets] it builds, or the exception of
    the first record that raises. *)
Fixpoint collect_markets (min_threshold : Z) (today : string)
    (ms : list raw_market) : outcome (list market) :=
  match ms with
  | [] => Returned []
  | m :: ms' =>
    match market_of_raw min_threshold today m with
    | Raised msg => Raised msg
    | Returned kept =>
      match collect_markets min_threshold today ms' with
      | Raised msg => Raised msg
      | Returned markets =>
        Returned match kept with
                 | Some mk => mk :: markets
                 | None => markets
                 end
      end
    end
  end.

(** [markets.sort(key=threshold, reverse=True)]: descending by
    threshold, markets of equal threshold keep their order. *)
Fixpoint insert_by_threshold (x : market) (l : list market) : list market :=
  match l with
  | [] => [x]
  | y :: l' =>
    if threshold y <=? threshold x then x :: y :: l'
    else y :: insert_by_threshold x l'
  end.

Definition sort_by_threshold_desc (l : list market) : list market :=
  foldr insert_by_threshold [] l.

(** [fetch_extreme_totals(min_threshold)], with [today] the current
    date in US/Eastern and [answer] what [requests.get] delivers: an
    answer of the exchange, or [Raised msg] when the request itself
    raises. The result is the triple [(markets, error, today)]; every
    exception inside the [try] ends in [([], str(e), today)]. *)
Definition fetch_extreme_totals (min_threshold : Z) (today : string)
    (answer : outcome response) : list market * option string * string :=
  match answer with
  | Raised msg => ([], Some msg, today)
  | Returned resp =>
    if negb (status_code resp =? 200) then
      ([], Some ("API Error: " +:+ pretty (status_code resp)), today)
    else
      match resp_json resp with
      | Raised msg => ([], Some msg, today)
      | Returned None => ([], Some NONE_NOT_ITERABLE, today)
      | Returned (Some ms) =>
        match collect_markets min_threshold today ms with
        | Raised msg => ([], Some msg, today)
        | Returned markets => (sort_by_threshold_desc markets, None, today)
        end
      end
  end.

(** The markets the loop keeps from a list of records none of which
    raises. *)
Definition kept_markets (min_threshold : Z) (today : string)
    (ms : list raw_market) : list market :=
  omap (λ m, match market_of_raw min_threshold today m with
             | Returned kept => kept
             | Raised _ => None
             end) ms.

(** The record on which the loop raises: a strike that passes the
    threshold test with a null event ticker. *)
Definition raises_on (min_threshold : Z) (m : raw_market) : Prop :=
  truthy (rm_floor_strike m) && at_least min_threshold (rm_floor_strike m)
    = true
  ∧ rm_event_ticker m = None.

(** ** Tolerance bands and the confidence score *)

(** [get_price_tolerance(q1_total)]. *)
Definition get_price_tolerance (q1_total : option Z) : Z * string :=
  match q1_total with
  | None => (68, "Pregame")
  | Some q =>
    if q <? 48 then (78, "Q1 < 48")
    else if q <? 50 then (75, "Q1 48-49")
    else if q <? 55 then (70, "Q1 50-54")
    else (0, "Q1 ≥ 55")
  end.

(** [x in watchlist] for a team name that may be [None]. *)
Definition on_watchlist (watchlist : gset string) (team : option string) : bool :=
  match team with
  | Some t => bool_decide (t ∈ watchlist)
  | None => false
  end.

(** The points of each rule, as the scoring path computes them. *)
Definition q1_points (q : Z) : Z :=
  if q <? 45 then 30 else if q <? 48 then 27 else if q <? 50 then 22 else 15.

Definition watchlist_points (watchlist : gset string) (m : market) : Z :=
  if on_watchlist watchlist (away_team m) || on_watchlist watchlist (home_team m)
  then 20 else 0.

Definition price_points (buffer : Z) : Z :=
  if 10 <=? buffer then 20 else if 6 <=? buffer then 15
  else if 3 <=? buffer then 10 else 5.

Definition threshold_points (threshold : Z) : Z :=
  if 252 <=? threshold then 10 else if 250 <=? threshold then 7
  else if 248 <=? threshold then 5 else 3.

Definition spread_points (spread_est : Z) : Z :=
  if 7 <=? spread_est then 8 else if 5 <=? spread_est then 5 else 2.

(** The result [(score, verdict, severity, breakdown)]; the breakdown
    dictionary is kept as its items in insertion order. *)
Definition confidence : Type := Z * string * string * list (string * string).

Definition score_of (c : confidence) : Z := c.1.1.1.
Definition severity_of (c : confidence) : string := c.1.2.
Definition breakdown_of (c : confidence) : list (string * string) := c.2.

(** [calculate_confidence(market, q1_total, watchlist, spread_est)]; the
    Python default of [spread_est] is 5. *)
Definition calculate_confidence (m : market) (q1_total : option Z)
    (watchlist : gset string) (spread_est : Z) : confidence :=
  let away := away_team m in
  let home := home_team m in
  let threshold := threshold m in
  let no_ask := no_ask m in
  if at_least 55 q1_total then
    (0, "🚫 Q1 ≥ 55 - NO TRADE", "red", [("REJECTED", "Q1 too high")])
  else
    let '(max_price, regime) := get_price_tolerance q1_total in
    if bool_decide (q1_total ≠ None) && (max_price <? no_ask) then
      (0, "🚫 Price " +:+ pretty no_ask +:+ "¢ > " +:+ pretty max_price
          +:+ "¢ for " +:+ regime,
       "red", [("REJECTED", "Overpriced")])
    else
      match q1_total with
      | None => (0, "⏳ WAIT FOR Q1", "gray", [])
      | Some q =>
        let score := 0 in
        let breakdown := [] in
        let q1_pts := q1_points q in
        let score := score + q1_pts in
        let breakdown :=
          PyStr.dict_set "Q1 Regime" (pretty q1_pts +:+ "/30") breakdown in
        let '(score, breakdown) :=
          if on_watchlist watchlist away || on_watchlist watchlist home
          then (score + 20, PyStr.dict_set "Watchlist" "✅ +20" breakdown)
          else (score, PyStr.dict_set "Watchlist" "❌ +0" breakdown) in
        let buffer := max_price - no_ask in
        let price_pts := price_points buffer in
        let score := score + price_pts in
        let breakdown :=
          PyStr.dict_set "Price Buffer" (pretty price_pts +:+ "/20") breakdown in
        let score := score + threshold_points threshold in
        let breakdown := PyStr.dict_set "Threshold" (pretty threshold) breakdown in
        let score := score + spread_points spread_est in
        let breakdown :=
          PyStr.dict_set "OT Risk" ("Spread " +:+ pretty spread_est) breakdown in
        if 75 <=? score then (score, "🚀 STRONG BET", "green", breakdown)
        else if 60 <=? score then (score, "✅ GOOD BET", "green", breakdown)
        else if 45 <=? score then (score, "🟡 MARGINAL", "yellow", breakdown)
        else (score, "⚠️ WEAK", "orange", breakdown)
      end.

(** ** Vocabulary of the specification *)

(** The four bands of a known Q1 total. *)
Inductive band : Type := Below48 | From48To49 | From50To54 | AtLeast55.

Definition in_band (b : band) (q : Z) : Prop :=
  match b with
  | Below48 => q < 48
  | From48To49 => 48 ≤ q < 50
  | From50To54 => 50 ≤ q < 55
  | AtLeast55 => 55 ≤ q
  end.

(** What [get_price_tolerance] returns in each band. *)
Definition band_result (b : band) : Z * string :=
  match b with
  | Below48 => (78, "Q1 < 48")
  | From48To49 => (75, "Q1 48-49")
  | From50To54 => (70, "Q1 50-54")
  | AtLeast55 => (0, "Q1 ≥ 55")
  end.

(** The band table as the specification words it, labels included. *)
Definition claimed_price_tolerance (q1_total : option Z) : Z * string :=
  match q1_total with
  | None => (68, "Pregame")
  | Some q =>
    if q <? 48 then (78, "Q1<48")
    else if q <? 50 then (75, "Q1 48-49")
    else if q <? 55 then (70, "Q1 50-54")
    else (0, "Q1≥55")
  end.






(** The breakdown entry of a rule; the empty text when it has none. *)
Definition breakdown_entry (rule : string) (c : confidence) : string :=
  PyStr.dict_get (breakdown_of c) rule "".

(** The weakest reading of "the entry records the points": the decimal
    text of the points occurs somewhere in the entry. It serves only to
    show that an entry does not record a contribution; what an entry is,
    is stated by equality with its text. *)
Definition records_points (entry : string) (points : Z) : bool :=
  PyStr.contains (pretty points) entry.

(** ** Sample inputs *)

(** A market quoted on the yes side only: 40 cents for yes, no ask
    reported as 0. *)
Definition yes_only_raw_market : raw_market :=
  RawMarket "KXNBATOTAL-26JAN15BOSMIA-250" (Some "KXNBATOTAL-26JAN15BOSMIA")
    (Some 250) (Some 40) (Some 0) 10.

Definition yes_only_response : outcome response :=
  Returned (Response 200 (Returned (Some [yes_only_raw_market]))).

(** The same answer with a second market whose event ticker is null. *)
Definition null_ticker_response : outcome response :=
  Returned (Response 200 (Returned (Some
    [yes_only_raw_market;
     RawMarket "KXNBATOTAL-X-251" None (Some 251) (Some 40) (Some 55) 3]))).

(** A market at strike 252 asking 60 cents for no. *)
Definition strike_252_market : market :=
  Market "KXNBATOTAL-26JAN15BOSMIA-252" "KXNBATOTAL-26JAN15BOSMIA" 252
    (Some "Boston") (Some "Miami") 42 60 10.

(** A first-quarter snapshot with 1:10 on the clock and 44 points. *)
Definition late_q1_game : live_game :=
  LiveGame "Boston" "Miami" 20 24 44 "🟢 LIVE" "Q1" "1:10" 1.

(** ** Team names and live scores *)

(** The [mappings] table of [normalize_team_name]. *)
Definition mappings : list (string * string) :=
  [("Atlanta Hawks", "Atlanta"); ("Boston Celtics", "Boston");
   ("Brooklyn Nets", "Brooklyn"); ("Charlotte Hornets", "Charlotte");
   ("Chicago Bulls", "Chicago"); ("Cleveland Cavaliers", "Cleveland");
   ("Dallas Mavericks", "Dallas"); ("Denver Nuggets", "Denver");
   ("Detroit Pistons", "Detroit"); ("Golden State Warriors", "Golden State");
   ("Houston Rockets", "Houston"); ("Indiana Pacers", "Indiana");
   ("LA Clippers", "LA Clippers"); ("Los Angeles Clippers", "LA Clippers");
   ("LA Lakers", "LA Lakers"); ("Los Angeles Lakers", "LA Lakers");
   ("Memphis Grizzlies", "Memphis"); ("Miami Heat", "Miami");
   ("Milwaukee Bucks", "Milwaukee"); ("Minnesota Timberwolves", "Minnesota");
   ("New Orleans Pelicans", "New Orleans"); ("New York Knicks", "New York");
   ("Oklahoma City Thunder", "Oklahoma City"); ("Orlando Magic", "Orlando");
   ("Philadelphia 76ers", "Philadelphia"); ("Phoenix Suns", "Phoenix");
   ("Portland Trail Blazers", "Portland"); ("Sacramento Kings", "Sacramento");
   ("San Antonio Spurs", "San Antonio"); ("Toronto Raptors", "Toronto");
   ("Utah Jazz", "Utah"); ("Washington Wizards", "Washington")].

(** [normalize_team_name(name)]. *)
Definition normalize_team_name (name : string) : string :=
  PyStr.dict_get mappings name name.

(** The [status, quarter] pair [fetch_espn_live_scores] derives from the
    feed's status type and period. *)
Definition espn_status (status_type : string) (period : Z) : string * string :=
  if decide (status_type = "STATUS_SCHEDULED") then ("🟡 SCHEDULED", "")
  else if decide (status_type = "STATUS_IN_PROGRESS")
  then ("🟢 LIVE", "Q" +:+ pretty period)
  else if decide (status_type = "STATUS_HALFTIME") then ("🟠 HALFTIME", "HALF")
  else if decide (status_type = "STATUS_END_PERIOD")
  then ("🟢 LIVE", "End Q" +:+ pretty period)
  else if decide (status_type = "STATUS_FINAL") then ("🔴 FINAL", "FINAL")
  else ("🟡 PENDING", "").

(** The entry [games[game_key] = {...}] that [fetch_espn_live_scores]
    stores for an event, given the two team names and scores its
    competitor loop found: the key and the dictionary. *)
Definition espn_game (away_team home_team : string) (away_score home_score : Z)
    (status_type clock : string) (period : Z) : string * live_game :=
  let '(status, quarter) := espn_status status_type period in
  let game_key := away_team +:+ "@" +:+ home_team in
  (game_key,
   LiveGame away_team home_team away_score home_score
     (away_score + home_score) status quarter clock period).

(** [get_live_game_data(away, home, live_scores)] for two team names. *)
Definition get_live_game_data (away home : string)
    (live_scores : gmap string live_game) : option live_game :=
  let game_key := away +:+ "@" +:+ home in
  match live_scores !! game_key with
  | Some g => Some g
  | None =>
    let game_key_rev := home +:+ "@" +:+ away in
    match live_scores !! game_key_rev with
    | Some g =>
      Some (LiveGame away home (lg_home_score g) (lg_away_score g)
              (lg_total g) (lg_status g) (lg_quarter g) (lg_clock g)
              (lg_period g))
    | None => None
    end
  end.

(** ** The page *)

Module Page.
Import Tracker.

(** The sidebar's count [sum(1 for v in spike_alerts.values() if v)]. *)
Definition active_spikes (st : session_state) : nat :=
  length (filter (λ v : bool, v = true)
            (map_to_list (alerts_dict (init_price_history st))).*2).

(** The sidebar's [Clear All Spikes] button: [spike_alerts = {}]. *)
Definition clear_all_spikes (st : session_state) : session_state :=
  let st := init_price_history st in
  SessionState (price_history st) (Some ∅).

(** What the page does with a market's price before it shows the
    market: [record_price], then [check_price_spike] with its default
    threshold and window, then the test [spiked or is_spiked(ticker)].
    [now1] and [now2] are the clock readings of the two calls. The
    result is the outcome of the test, the delta, and the session. *)
Definition observe_price (ticker : string) (price now1 now2 : Z)
    (st : session_state) : (bool * Z) * session_state :=
  let st := record_price ticker price now1 st in
  let '((spiked, delta), st) := check_price_spike ticker price 5 30 now2 st in
  if spiked then ((true, delta), st)
  else let '(flag, st) := is_spiked ticker st in ((flag, delta), st).

(** The ticker a tracker call is about. *)
Definition call_ticker (c : call) : string :=
  match c with
  | RecordPrice ticker _ _ => ticker
  | CheckPriceSpike ticker _ _ _ _ => ticker
  | IsSpiked ticker => ticker
  end.

(** The three lists the page splits the markets into. *)
Definition on_watchlist_market (watchlist : gset string) (m : market) : bool :=
  on_watchlist watchlist (away_team m) || on_watchlist watchlist (home_team m).

Definition watchlist_markets (watchlist : gset string) (markets : list market)
    : list market :=
  filter (λ m, on_watchlist_market watchlist m = true) markets.

Definition watchlist_green (watchlist : gset string) (markets : list market)
    : list market :=
  filter (λ m, no_ask m ≤ 68) (watchlist_markets watchlist markets).

Definition watchlist_yellow (watchlist : gset string) (markets : list market)
    : list market :=
  filter (λ m, 68 < no_ask m) (watchlist_markets watchlist markets).

Definition non_watchlist (watchlist : gset string) (markets : list market)
    : list market :=
  filter (λ m, on_watchlist watchlist (away_team m) = false
               ∧ on_watchlist watchlist (home_team m) = false) markets.

(** The price status shown for a market outside the watchlist. *)
Definition p_status (no_ask : Z) : string :=
  if no_ask <=? 68 then "🟢 OK"
  else if no_ask <=? 78 then "🟡 Wait" else "🔴 Expensive".

(** The decision of [render_bid_recommendation]: the recommendation it
    computes from the live data and the ticker's alert. *)
Definition bid_recommendation (py_int py_int_of_float : string → option Z)
    (no_ask : Z) (live_data : option live_game) (ticker : string)
    (st : session_state) : recommendation * session_state :=
  let '(game_state, q1_lock_imminent, q1_total) :=
    get_game_state py_int py_int_of_float live_data in
  let '(spiked, st) := is_spiked ticker st in
  (calculate_recommended_bid no_ask game_state q1_total spiked q1_lock_imminent,
   st).

(** The box [render_bid_recommendation] draws for a recommendation. *)
Inductive box : Type :=
  | SpikeError
  | BidBox (bid : Z)
  | LiftAskBox
  | NoTradeError
  | PlainBox.

Definition rendered_box (spiked : bool) (r : recommendation) : box :=
  if spiked then SpikeError
  else match bid_of r with
       | Some bid => BidBox bid
       | None =>
         if PyStr.contains "ACCEPTABLE" (label_of r) then LiftAskBox
         else if PyStr.contains "NO TRADE" (label_of r) then NoTradeError
         else PlainBox
       end.

End Page.

(** Descending threshold order. *)
Definition threshold_desc (a b : market) : Prop := threshold b ≤ threshold a.

(** The game code of an event ticker: its second dash-separated piece. *)
Definition game_code_of (event_ticker : string) : option string :=
  match PyStr.split "-"%char event_ticker with
  | _ :: game_code :: _ => Some game_code
  | _ => None
  end.

(** * Properties *)

(** ** The price history tracker *)

Section TrackerFacts.
Import Tracker.

Implicit Types (st : session_state) (ticker : string) (c : call).
Implicit Types (price current_price p th w now d : Z).

Lemma alerts_dict_init st :
  alerts_dict (init_price_history st) = alerts_dict st.
Proof. by destruct st as [h [a|]]. Qed.

Lemma history_dict_init st :
  history_dict (init_price_history st) = history_dict st.
Proof. by destruct st as [[h|] a]. Qed.

Lemma record_price_alerts ticker price now st :
  alerts_dict (record_price ticker price now st) = alerts_dict st.
Proof. by destruct st as [h [a|]]. Qed.

(** What [check_price_spike] does to the alerts: nothing, or it raises
    the one of its own ticker. *)
Lemma check_price_spike_alerts ticker p th w now st :
  let st' := (check_price_spike ticker p th w now st).2 in
  alerts_dict st' = alerts_dict st ∨
  alerts_dict st' = <[ticker := true]> (alerts_dict st).
Proof.
  unfold check_price_spike; simpl.
  destruct (history_dict (init_price_history st) !! ticker) as [hist|];
    [|left; apply alerts_dict_init].
  destruct (filter _ hist) as [|oldest old]; [left; apply alerts_dict_init|].
  case_bool_decide; simpl.
  - right. by rewrite alerts_dict_init.
  - left. apply alerts_dict_init.
Qed.

Lemma check_price_spike_triggered ticker p th w now st d st1 :
  check_price_spike ticker p th w now st = ((true, d), st1) →
  alerted ticker st1.
Proof.
  unfold check_price_spike, alerted.
  destruct (history_dict (init_price_history st) !! ticker) as [hist|];
    [|discriminate].
  destruct (filter _ hist) as [|oldest old]; [discriminate|].
  case_bool_decide; [|discriminate].
  intros [= _ <-]. simpl. apply lookup_insert_eq.
Qed.

Lemma run_call_alerted ticker c st :
  alerted ticker st → alerted ticker (run_call c st).
Proof.
  unfold alerted. intros Hset. destruct c as [t price now|t p th w now|t]; simpl.
  - by rewrite record_price_alerts.
  - destruct (check_price_spike_alerts t p th w now st) as [-> | ->]; [done|].
    destruct (decide (t = ticker)) as [->|Hne].
    + apply lookup_insert_eq.
    + by rewrite lookup_insert_ne.
  - unfold is_spiked; simpl. by rewrite alerts_dict_init.
Qed.

Lemma run_calls_alerted ticker cs st :
  alerted ticker st → alerted ticker (run_calls cs st).
Proof.
  unfold run_calls. revert st.
  induction cs as [|c cs IH]; intros st Hset; simpl; [done|].
  apply IH. by apply run_call_alerted.
Qed.

Lemma is_spiked_alerted ticker st :
  alerted ticker st → (is_spiked ticker st).1 = true.
Proof.
  unfold alerted, is_spiked. simpl. rewrite alerts_dict_init. by intros ->.
Qed.

Lemma is_spiked_clear_spike ticker st :
  (is_spiked ticker (clear_spike ticker st)).1 = false.
Proof.
  unfold is_spiked, clear_spike. simpl.
  rewrite !alerts_dict_init.
  destruct (alerts_dict st !! ticker) as [b|] eqn:Hlook.
  - unfold alerts_dict at 1; simpl. by rewrite lookup_insert_eq.
  - by rewrite alerts_dict_init, Hlook.
Qed.

(** C2. Once [check_price_spike] has triggered for a ticker, [is_spiked]
    answers true for it after any further sequence of [record_price],
    [check_price_spike] and [is_spiked] calls (on any tickers, prices
    and clock readings); and right after [clear_spike] for that ticker
    it answers false. *)
Theorem spike_alert_sticky ticker p th w now st d st1 (cs : list call) :
  check_price_spike ticker p th w now st = ((true, d), st1) →
  (is_spiked ticker (run_calls cs st1)).1 = true ∧
  (is_spiked ticker (clear_spike ticker (run_calls cs st1))).1 = false.
Proof.
  intros Htrig. split.
  - apply is_spiked_alerted, run_calls_alerted.
    by eapply check_price_spike_triggered.
  - apply is_spiked_clear_spike.
Qed.

Lemma spike_alert_sticky_witness :
  let st1 := (check_price_spike "T1" 67 5 30 31000000 scenario_state).2 in
  (is_spiked "T1" (run_calls scenario_calls st1)).1 = true ∧
  (is_spiked "T1" (clear_spike "T1" (run_calls scenario_calls st1))).1 = false.
Proof.
  intros st1.
  apply (spike_alert_sticky "T1" 67 5 30 31000000 scenario_state 7 st1).
  vm_compute. reflexivity.
Defined.

(** The first sample a filter keeps from an ascending list is the
    earliest of the samples it keeps. *)
Lemma ascending_filter_head (P : sample → Prop) `{!∀ s, Decision (P s)}
    (l : list sample) base rest :
  ascending l → filter P l = base :: rest →
  Forall (λ s : sample, base.1 ≤ s.1) (base :: rest).
Proof.
  unfold ascending. induction l as [|x l IH]; intros Hsorted Hfilter.
  - discriminate.
  - apply StronglySorted_cons in Hsorted as [Hx Hl].
    rewrite filter_cons in Hfilter. destruct (decide (P x)).
    + injection Hfilter as <- <-. constructor; [lia|].
      apply Forall_forall. intros s [_ Hs]%list_elem_of_filter.
      by eapply Forall_forall in Hx.
    + by apply IH.
Qed.

(** The history [record_price] leaves for its ticker: the new sample
    appended, then everything not younger than 120 seconds dropped. *)
Lemma history_of_record_price ticker price now st :
  history_of ticker (record_price ticker price now st) =
  filter (λ s : sample, now - timedelta 120 < s.1)
    (history_of ticker st ++ [(now, price)]).
Proof.
  unfold history_of, record_price.
  rewrite history_dict_init.
  unfold history_dict at 1. cbn [price_history].
  rewrite lookup_insert_eq. cbn [default].
  destruct (history_dict st !! ticker) as [hist|] eqn:Hlook.
  - by rewrite lookup_insert_eq, Hlook.
  - by rewrite !lookup_insert_eq.
Qed.

(** X2. After [record_price] the ticker's history holds the new sample, and
    every sample it holds is younger than 120 seconds. *)
Lemma record_price_retention ticker price now st :
  let h := history_of ticker (record_price ticker price now st) in
  (now, price) ∈ h ∧ Forall (λ s : sample, now - timedelta 120 < s.1) h.
Proof.
  simpl. rewrite history_of_record_price. split.
  - apply list_elem_of_filter. split; [unfold timedelta; simpl; lia|].
    apply elem_of_app. right. by apply list_elem_of_singleton.
  - apply Forall_forall. by intros s [Hs _]%list_elem_of_filter.
Qed.

(** X3. [record_price] keeps a history ascending when the clock has not run
    backwards since the samples it holds were taken. *)
Lemma record_price_ascending ticker price now st :
  ascending (history_of ticker st) →
  Forall (λ s : sample, s.1 ≤ now) (history_of ticker st) →
  ascending (history_of ticker (record_price ticker price now st)).
Proof.
  rewrite history_of_record_price. unfold ascending.
  intros Hsorted Hbefore.
  assert (StronglySorted (λ a b : sample, a.1 ≤ b.1)
            (history_of ticker st ++ [(now, price)])) as Happ.
  { apply StronglySorted_app. split_and!; [|done|repeat constructor].
    intros a b Ha ->%list_elem_of_singleton. simpl.
    by eapply Forall_forall in Hbefore. }
  clear -Happ. induction Happ as [|x l Hl IH Hx]; [constructor|].
  rewrite filter_cons. case_decide; [|done].
  constructor; [done|].
  apply Forall_forall. intros s [_ Hs]%list_elem_of_filter.
  by eapply Forall_forall in Hx.
Qed.

(** C3. [check_price_spike] reads the "old" samples of the ticker, those
    with timestamp at most [now - window]. With none it answers
    [(False, 0)] and only initialises the session. Otherwise its
    baseline is the first old sample stored, which on an ascending
    history is the earliest old sample, and with
    [delta = current_price - baseline] it answers [(True, delta)] and
    raises the alert when [delta >= threshold], and [(False, delta)]
    leaving the alerts as they were when [delta < threshold]. *)
Theorem check_price_spike_spec ticker current_price th w now st :
  let old := old_samples ticker w now st in
  let result := check_price_spike ticker current_price th w now st in
  (old = [] → result = ((false, 0), init_price_history st)) ∧
  (∀ base rest, old = base :: rest →
     let delta := current_price - base.2 in
     (ascending (history_of ticker st) →
        Forall (λ s : sample, base.1 ≤ s.1) old) ∧
     (th ≤ delta →
        result = ((true, delta), with_alert ticker st) ∧
        (is_spiked ticker result.2).1 = true) ∧
     (delta < th →
        result = ((false, delta), init_price_history st) ∧
        alerts_dict result.2 = alerts_dict st)).
Proof.
  unfold old_samples, history_of, check_price_spike. simpl.
  rewrite history_dict_init.
  destruct (history_dict st !! ticker) as [hist|] eqn:Hlook; simpl.
  - split.
    + by intros ->.
    + intros base rest Hold. rewrite Hold. split_and!.
      * intros Hsorted. by eapply ascending_filter_head.
      * intros Hth. rewrite bool_decide_eq_true_2 by done.
        split; [by rewrite alerts_dict_init|].
        apply is_spiked_alerted. unfold alerted. simpl.
        apply lookup_insert_eq.
      * intros Hth. rewrite bool_decide_eq_false_2 by lia.
        split; [done|]. apply alerts_dict_init.
  - split; [done|]. intros ? ? [=].
Qed.

Lemma check_price_spike_spec_witness :
  old_samples "T1" 30 31000000 scenario_state = [(0, 60)] ∧
  Forall (λ s : sample, 0 ≤ s.1) (old_samples "T1" 30 31000000 scenario_state) ∧
  check_price_spike "T1" 67 5 30 31000000 scenario_state
    = ((true, 7), with_alert "T1" scenario_state) ∧
  (is_spiked "T1"
     (check_price_spike "T1" 67 5 30 31000000 scenario_state).2).1 = true.
Proof.
  assert (old_samples "T1" 30 31000000 scenario_state = [(0, 60)]) as Hold
    by (vm_compute; reflexivity).
  destruct (proj2 (check_price_spike_spec "T1" 67 5 30 31000000 scenario_state)
              (0, 60) [] Hold) as (Hearliest & Htriggered & _).
  split_and!.
  - exact Hold.
  - apply Hearliest.
    replace (history_of "T1" scenario_state) with [(0, 60); (31000000, 67)]
      by (vm_compute; reflexivity).
    unfold ascending. repeat constructor; simpl; lia.
  - apply Htriggered. simpl. lia.
  - apply Htriggered. simpl. lia.
Defined.

End TrackerFacts.

(** ** Market records: the derived no-ask *)

(** A market kept by the loop with no ask of its own and a positive yes
    ask stores [1 - yes_ask]. *)
Lemma market_of_raw_no_ask_fallback min_threshold today m mk :
  market_of_raw min_threshold today m = Returned (Some mk) →
  or_zero (rm_no_ask m) = 0 → 0 < or_zero (rm_yes_ask m) →
  yes_ask mk = or_zero (rm_yes_ask m) ∧ no_ask mk = 1 - yes_ask mk.
Proof.
  unfold market_of_raw. intros Hkept Hno Hyes.
  destruct (truthy _ && at_least _ _); [|discriminate].
  destruct (rm_event_ticker m) as [event_ticker|]; [|discriminate].
  injection Hkept as Hkept.
  destruct (PyStr.split _ _) as [|? [|game_code ?]]; try discriminate.
  case_decide; [|discriminate].
  destruct (parse_teams_from_ticker game_code) as [away home].
  injection Hkept as <-. simpl. rewrite Hno. simpl.
  by rewrite (proj2 (Z.ltb_lt _ _) Hyes).
Qed.

(** C1. On the yes-only market (yes ask 40, no ask 0)
    [fetch_extreme_totals] stores a no ask of [1 - 40 = -39], not the
    [100 - 40 = 60] cents of the specification. *)
Theorem fetch_extreme_totals_yes_only :
  fetch_extreme_totals 245 "2026-01-15" yes_only_response =
    ([Market "KXNBATOTAL-26JAN15BOSMIA-250" "KXNBATOTAL-26JAN15BOSMIA" 250
        (Some "Boston") (Some "Miami") 40 (-39) 10],
     None, "2026-01-15") ∧
  -39 ≠ 100 - 40.
Proof. split; [vm_compute; reflexivity | lia]. Qed.

(** ** Bid recommendation *)

(** C7. For a fixed game state, Q1 total and flags, the recommended bid
    does not decrease when the ask rises: whenever both asks get a bid,
    the bid of the lower ask is at most the bid of the higher one. *)
Theorem recommended_bid_monotone (no_ask1 no_ask2 : Z) game_state q1_total
    (spiked lock : bool) (bid1 bid2 : Z) :
  no_ask1 ≤ no_ask2 →
  bid_of (calculate_recommended_bid no_ask1 game_state q1_total spiked lock)
    = Some bid1 →
  bid_of (calculate_recommended_bid no_ask2 game_state q1_total spiked lock)
    = Some bid2 →
  bid1 ≤ bid2.
Proof.
  unfold calculate_recommended_bid, bid_of. intros Hle.
  destruct spiked; [discriminate|].
  repeat case_decide.
  - intros [= <-] [= <-]. lia.
  - destruct lock; intros [= <-] [= <-]; lia.
  - destruct (truthy q1_total && at_least 55 q1_total); [discriminate|].
    destruct (Z.leb_spec no_ask1 75), (Z.leb_spec no_ask2 75);
      try discriminate.
    intros [= <-] [= <-]. lia.
  - intros [= <-] [= <-]. lia.
Qed.

Lemma recommended_bid_monotone_witness :
  bid_of (calculate_recommended_bid 70 "live_q1" None false false) = Some 62 ∧
  bid_of (calculate_recommended_bid 80 "live_q1" None false false) = Some 72 ∧
  62 ≤ 72.
Proof.
  split_and!; [reflexivity | reflexivity |].
  apply (recommended_bid_monotone 70 80 "live_q1" None false false 62 72);
    [lia | reflexivity | reflexivity].
Defined.

(** C10. In state [post_q1] with no Q1 total ([None] or 0) the call
    returns a value and never the NO TRADE veto (its label does not hold
    ["NO TRADE"], the test the page applies); on a market that is not
    spiked it answers ASK ACCEPTABLE with no bid when [no_ask <= 75]
    and bids [no_ask - 3] otherwise. *)
Theorem post_q1_without_total (no_ask : Z) q1_total (spiked lock : bool) :
  q1_total = None ∨ q1_total = Some 0 →
  let r := calculate_recommended_bid no_ask "post_q1" q1_total spiked lock in
  PyStr.contains "NO TRADE" (label_of r) = false ∧
  (spiked = false → no_ask ≤ 75 →
     r = (None, "✅ ASK ACCEPTABLE",
          "Lift ask at " +:+ pretty no_ask +:+ "¢ if desired") ∧
     PyStr.contains "ASK ACCEPTABLE" (label_of r) = true) ∧
  (spiked = false → 75 < no_ask →
     r = (Some (no_ask - 3), "Post-Q1 Value Bid",
          "Information edge confirmed — tight spread OK")).
Proof.
  intros Hq. unfold calculate_recommended_bid, label_of.
  assert (truthy q1_total && at_least 55 q1_total = false) as ->
    by (by destruct Hq as [-> | ->]).
  repeat case_decide; try done.
  destruct spiked; simpl.
  - split_and!; [reflexivity | discriminate | discriminate].
  - destruct (Z.leb_spec no_ask 75); simpl.
    + split_and!; [reflexivity | done | lia].
    + split_and!; [reflexivity | lia | done].
Qed.

Lemma post_q1_without_total_witness :
  calculate_recommended_bid 72 "post_q1" None false false
    = (None, "✅ ASK ACCEPTABLE", "Lift ask at 72¢ if desired") ∧
  calculate_recommended_bid 80 "post_q1" (Some 0) false false
    = (Some 77, "Post-Q1 Value Bid",
       "Information edge confirmed — tight spread OK").
Proof.
  split.
  - apply (post_q1_without_total 72 None false false); [by left | done | lia].
  - apply (post_q1_without_total 80 (Some 0) false false);
      [by right | done | lia].
Defined.

(** The end-to-end scenarios 1 to 4 of the specification. *)
Example recommended_bid_scenarios :
  calculate_recommended_bid 90 "pregame" None false false
    = (Some 80, "Patient Pregame Bid", "Let price come to you — don't chase") ∧
  bid_of (calculate_recommended_bid 62 "pregame" None false false) = Some 60 ∧
  calculate_recommended_bid 65 "post_q1" (Some 56) false false
    = (None, "🚫 NO TRADE", "Q1 too high — skip this game") ∧
  calculate_recommended_bid 72 "post_q1" (Some 40) false false
    = (None, "✅ ASK ACCEPTABLE", "Lift ask at 72¢ if desired").
Proof. split_and!; reflexivity. Qed.

(** A spiked market gets no bid, whatever the state and the ask. *)
Lemma recommended_bid_spiked (no_ask : Z) game_state q1_total (lock : bool) :
  calculate_recommended_bid no_ask game_state q1_total true lock
    = (None, "🛑 DO NOT BID", "Market moved too fast — wait for cooldown").
Proof. reflexivity. Qed.

(** ** Tolerance bands *)

Lemma in_band_cases (q : Z) : ∃ b, in_band b q.
Proof.
  destruct (Z.ltb_spec q 48); [by exists Below48|].
  destruct (Z.ltb_spec q 50); [by exists From48To49|].
  destruct (Z.ltb_spec q 55); [by exists From50To54|].
  by exists AtLeast55.
Qed.

Lemma in_band_unique (q : Z) b b' : in_band b q → in_band b' q → b' = b.
Proof. destruct b, b'; simpl; intros; first [reflexivity | lia]. Qed.

Lemma get_price_tolerance_in_band (q : Z) b :
  in_band b q → get_price_tolerance (Some q) = band_result b.
Proof.
  unfold get_price_tolerance.
  destruct b; simpl; intros Hb;
    destruct (Z.ltb_spec q 48), (Z.ltb_spec q 50), (Z.ltb_spec q 55);
    first [reflexivity | lia].
Qed.

(** C5, as the code has it. [get_price_tolerance] maps [None] to
    [(68, "Pregame")] and a Q1 total to the result of its band:
    [(78, "Q1 < 48")] below 48, [(75, "Q1 48-49")] for 48 and 49,
    [(70, "Q1 50-54")] for 50 to 54 and [(0, "Q1 ≥ 55")] from 55 on,
    the first and last label written with spaces. Every integer lies in
    exactly one band, and the ceiling does not increase as the Q1 total
    increases. *)
Theorem price_tolerance_bands :
  get_price_tolerance None = (68, "Pregame") ∧
  (∀ q : Z, ∃ b, in_band b q ∧ (∀ b', in_band b' q → b' = b) ∧
     get_price_tolerance (Some q) = band_result b) ∧
  (∀ q1 q2 : Z, q1 ≤ q2 →
     (get_price_tolerance (Some q2)).1 ≤ (get_price_tolerance (Some q1)).1).
Proof.
  split_and!.
  - reflexivity.
  - intros q. destruct (in_band_cases q) as [b Hb]. exists b. split_and!.
    + done.
    + intros b' Hb'. by eapply in_band_unique.
    + by apply get_price_tolerance_in_band.
  - intros q1 q2 Hle.
    destruct (in_band_cases q1) as [b1 Hb1], (in_band_cases q2) as [b2 Hb2].
    rewrite (get_price_tolerance_in_band q1 b1), (get_price_tolerance_in_band q2 b2)
      by done.
    destruct b1, b2; simpl in *; lia.
Qed.

Lemma price_tolerance_bands_witness :
  get_price_tolerance (Some 49) = (75, "Q1 48-49") ∧
  (get_price_tolerance (Some 52)).1 ≤ (get_price_tolerance (Some 47)).1.
Proof.
  destruct price_tolerance_bands as (_ & Hband & Hmono). split.
  - destruct (Hband 49) as (b & Hin & _ & ->).
    destruct b; simpl in Hin; first [reflexivity | lia].
  - apply Hmono. lia.
Defined.

(** C5, as the specification words it, fails on the labels: for a Q1
    total of 40 the code returns the label ["Q1 < 48"], not ["Q1<48"],
    and for 60 it returns ["Q1 ≥ 55"], not ["Q1≥55"]. *)
Lemma price_tolerance_labels_differ :
  get_price_tolerance (Some 40) = (78, "Q1 < 48") ∧
  claimed_price_tolerance (Some 40) = (78, "Q1<48") ∧
  get_price_tolerance (Some 40) ≠ claimed_price_tolerance (Some 40) ∧
  get_price_tolerance (Some 60) ≠ claimed_price_tolerance (Some 60).
Proof. split_and!; [reflexivity | reflexivity | discriminate | discriminate]. Qed.

(** ** Confidence score *)

(** C4. A Q1 total of 55 or more forces score 0 and severity red,
    whatever the market (teams, threshold, no ask), the watchlist and
    the spread estimate. *)
Theorem confidence_q1_veto (m : market) (q : Z) (watchlist : gset string)
    (spread_est : Z) :
  55 ≤ q →
  let c := calculate_confidence m (Some q) watchlist spread_est in
  score_of c = 0 ∧ severity_of c = "red" ∧
  c = (0, "🚫 Q1 ≥ 55 - NO TRADE", "red", [("REJECTED", "Q1 too high")]).
Proof.
  intros Hq. unfold calculate_confidence, at_least.
  by rewrite (proj2 (Z.leb_le 55 q) Hq).
Qed.

Lemma confidence_q1_veto_witness :
  score_of (calculate_confidence strike_252_market (Some 56) {["Miami"]} 7) = 0 ∧
  severity_of (calculate_confidence strike_252_market (Some 56) {["Miami"]} 7)
    = "red".
Proof.
  destruct (confidence_q1_veto strike_252_market 56 {["Miami"]} 7) as (H0 & Hred & _);
    [lia | by split].
Defined.

(** The scoring path: a known Q1 total below 55 and a no ask within the
    ceiling of its band. On it the score is the sum of the five rules'
    points. *)
Lemma confidence_scoring_path (m : market) (q : Z) (watchlist : gset string)
    (spread_est : Z) :
  q < 55 → no_ask m ≤ (get_price_tolerance (Some q)).1 →
  let buffer := (get_price_tolerance (Some q)).1 - no_ask m in
  let c := calculate_confidence m (Some q) watchlist spread_est in
  score_of c =
    q1_points q + watchlist_points watchlist m + price_points buffer
    + threshold_points (threshold m) + spread_points spread_est ∧
  breakdown_of c =
    [("Q1 Regime", pretty (q1_points q) +:+ "/30");
     ("Watchlist",
      if decide (watchlist_points watchlist m = 20) then "✅ +20" else "❌ +0");
     ("Price Buffer", pretty (price_points buffer) +:+ "/20");
     ("Threshold", pretty (threshold m));
     ("OT Risk", "Spread " +:+ pretty spread_est)].
Proof.
  intros Hq Hask. unfold calculate_confidence, at_least, watchlist_points.
  rewrite (proj2 (Z.leb_gt 55 q) Hq).
  destruct (get_price_tolerance (Some q)) as [max_price regime].
  cbn [fst] in Hask.
  rewrite (proj2 (Z.ltb_ge max_price (no_ask m)) Hask), andb_false_r.
  cbn [fst].
  destruct (on_watchlist watchlist (away_team m) || on_watchlist watchlist (home_team m));
    cbn zeta beta iota;
    repeat match goal with |- context [if ?b then _ else _] =>
      lazymatch b with
      | (_ <=? _) => destruct b
      end
    end; unfold score_of, breakdown_of; cbn [fst snd]; split; try lia.
  all: unfold PyStr.dict_set; repeat case_decide; try done.
Qed.

(** X1. The confidence score lies between 0 and 88 on every input. *)
Lemma confidence_score_bounds (m : market) q1_total (watchlist : gset string)
    (spread_est : Z) :
  0 ≤ score_of (calculate_confidence m q1_total watchlist spread_est) ≤ 88.
Proof.
  destruct q1_total as [q|]; [|by unfold calculate_confidence].
  destruct (Z.leb_spec 55 q) as [Hq|Hq].
  { unfold calculate_confidence, at_least.
    by rewrite (proj2 (Z.leb_le 55 q) Hq). }
  destruct (Z.ltb_spec (get_price_tolerance (Some q)).1 (no_ask m)) as [Hask|Hask].
  - unfold calculate_confidence, at_least.
    rewrite (proj2 (Z.leb_gt 55 q) Hq).
    destruct (get_price_tolerance (Some q)) as [max_price regime].
    cbn [fst] in Hask. by rewrite (proj2 (Z.ltb_lt _ _) Hask).
  - rewrite (proj1 (confidence_scoring_path m q watchlist spread_est Hq Hask)).
    unfold q1_points, watchlist_points, price_points, threshold_points,
      spread_points.
    repeat case_match; lia.
Qed.

(** C9, as the code has it. On the scoring path the breakdown holds
    one entry per rule, in the order Q1 Regime, Watchlist, Price Buffer,
    Threshold, OT Risk. The first three are the rule's points: ["p/30"]
    for the Q1 rule, ["✅ +20"] when the watchlist rule adds 20 points
    and ["❌ +0"] when it adds none, ["p/20"] for the price buffer. The
    Threshold entry is the strike itself and the OT Risk entry is the
    spread estimate, not the points those two rules add to the score. *)
Theorem confidence_breakdown_entries (m : market) (q : Z)
    (watchlist : gset string) (spread_est : Z) :
  q < 55 → no_ask m ≤ (get_price_tolerance (Some q)).1 →
  let buffer := (get_price_tolerance (Some q)).1 - no_ask m in
  let c := calculate_confidence m (Some q) watchlist spread_est in
  score_of c =
    q1_points q + watchlist_points watchlist m + price_points buffer
    + threshold_points (threshold m) + spread_points spread_est ∧
  (breakdown_of c).*1 =
    ["Q1 Regime"; "Watchlist"; "Price Buffer"; "Threshold"; "OT Risk"] ∧
  breakdown_entry "Q1 Regime" c = pretty (q1_points q) +:+ "/30" ∧
  (watchlist_points watchlist m = 20 ∧
     breakdown_entry "Watchlist" c = "✅ +20"
   ∨ watchlist_points watchlist m = 0 ∧
     breakdown_entry "Watchlist" c = "❌ +0") ∧
  breakdown_entry "Price Buffer" c = pretty (price_points buffer) +:+ "/20" ∧
  breakdown_entry "Threshold" c = pretty (threshold m) ∧
  breakdown_entry "OT Risk" c = "Spread " +:+ pretty spread_est.
Proof.
  intros Hq Hask buffer c.
  destruct (confidence_scoring_path m q watchlist spread_est Hq Hask)
    as [Hscore Hbreak].
  fold buffer c in Hscore, Hbreak.
  unfold breakdown_entry. rewrite Hbreak.
  split_and!; try done.
  unfold PyStr.dict_get.
  destruct (decide (watchlist_points watchlist m = 20)) as [Hon|Hoff].
  - left. split; [done|]. repeat case_decide; done.
  - right. split.
    + unfold watchlist_points in *. by case_match.
    + repeat case_decide; done.
Qed.

Lemma confidence_breakdown_entries_witness :
  (let c := calculate_confidence strike_252_market (Some 40) {["Miami"]} 5 in
   score_of c = 30 + 20 + 20 + 10 + 5 ∧
   breakdown_entry "Watchlist" c = "✅ +20" ∧
   breakdown_entry "Threshold" c = "252" ∧
   breakdown_entry "OT Risk" c = "Spread 5") ∧
  (let c := calculate_confidence strike_252_market (Some 40) ∅ 5 in
   score_of c = 30 + 0 + 20 + 10 + 5 ∧
   breakdown_entry "Watchlist" c = "❌ +0").
Proof.
  split.
  - destruct (confidence_breakdown_entries strike_252_market 40 {["Miami"]} 5)
      as (Hscore & _ & _ & Hwatch & _ & Hthreshold & Hrisk).
    + lia.
    + vm_compute. discriminate.
    + split_and!.
      * rewrite Hscore. vm_compute. reflexivity.
      * destruct Hwatch as [[_ Hentry]|[Hpoints _]]; [exact Hentry|].
        vm_compute in Hpoints. discriminate.
      * rewrite Hthreshold. vm_compute. reflexivity.
      * rewrite Hrisk. vm_compute. reflexivity.
  - destruct (confidence_breakdown_entries strike_252_market 40 ∅ 5)
      as (Hscore & _ & _ & Hwatch & _).
    + lia.
    + vm_compute. discriminate.
    + split.
      * rewrite Hscore. vm_compute. reflexivity.
      * destruct Hwatch as [[Hpoints _]|[_ Hentry]]; [|exact Hentry].
        vm_compute in Hpoints. discriminate.
Defined.

(** C9, as the specification words it, fails for two of the five rules:
    at strike 252 with a spread estimate of 7 the threshold rule adds 10
    points and the spread rule 8, while the breakdown holds ["252"] and
    ["Spread 7"], in which neither number of points occurs. *)
Lemma confidence_breakdown_omits_points :
  let c := calculate_confidence strike_252_market (Some 40) ∅ 7 in
  score_of c = 30 + 0 + 20 + 10 + 8 ∧
  breakdown_of c =
    [("Q1 Regime", "30/30"); ("Watchlist", "❌ +0"); ("Price Buffer", "20/20");
     ("Threshold", "252"); ("OT Risk", "Spread 7")] ∧
  threshold_points (threshold strike_252_market) = 10 ∧
  records_points (breakdown_entry "Threshold" c) 10 = false ∧
  spread_points 7 = 8 ∧
  records_points (breakdown_entry "OT Risk" c) 8 = false.
Proof. vm_compute. split_and!; reflexivity. Qed.

(** ** Game state classifier *)

(** A text without the separator splits into itself alone. *)
Lemma split_without_separator (sep : ascii) (s : string) :
  PyStr.contains (String sep EmptyString) s = false → PyStr.split sep s = [s].
Proof.
  induction s as [|c s IH]; simpl; [done|].
  destruct (decide (sep = c)) as [->|Hne].
  - by rewrite decide_True.
  - rewrite decide_False by done. simpl. intros Hs. by rewrite IH.
Qed.

Section ClassifierFacts.

Variable py_int : string → option Z.
Variable py_int_of_float : string → option Z.

(** The [try] body computes the flag exactly when the clock splits at
    its colon into two convertible pieces. *)
Lemma try_q1_lock_true (clock : string) (total : Z) :
  default false (try_q1_lock py_int py_int_of_float clock total) = true ↔
  ∃ mins secs m s,
    PyStr.split ":" clock = [mins; secs] ∧
    py_int mins = Some m ∧ py_int_of_float secs = Some s ∧
    m * 60 + s ≤ 75 ∧ total < 50.
Proof.
  unfold try_q1_lock, clock_total_secs.
  destruct (PyStr.contains ":" clock) eqn:Hcolon.
  - destruct (PyStr.split ":" clock) as [|mins [|secs [|]]] eqn:Hsplit; simpl;
      try (split; [done | by intros (? & ? & ? & ? & [=] & _)]).
    destruct (py_int mins) as [m|] eqn:Hm; simpl;
      [|split; [done | intros (? & ? & ? & ? & [= <- <-] & ? & _); congruence]].
    destruct (py_int_of_float secs) as [s|] eqn:Hs; simpl;
      [|split; [done | intros (? & ? & ? & ? & [= <- <-] & ? & ? & _); congruence]].
    rewrite bool_decide_eq_true. split.
    + intros [? ?]. by exists mins, secs, m, s.
    + intros (? & ? & m' & s' & [= <- <-] & Hm' & Hs' & ? & ?).
      rewrite Hm in Hm'. rewrite Hs in Hs'. injection Hm' as <-.
      injection Hs' as <-. done.
  - simpl. split; [done|].
    intros (? & ? & ? & ? & Hsplit & _).
    by rewrite split_without_separator in Hsplit.
Qed.

(** C6. A snapshot in period 1 whose quarter label holds no ["End"] and
    whose status is not scheduled is classified [live_q1] with its
    total; the early-lock flag is true exactly when the clock is two
    pieces around one colon, minutes and seconds both convert, the
    seconds left are at most 75 and the total is below 50. A clock that
    does not parse leaves the flag false, and the call still returns. *)
Theorem get_game_state_live_q1 (d : live_game) :
  lg_period d = 1 →
  PyStr.contains "End" (lg_quarter d) = false →
  lg_status d ≠ STATUS_SCHEDULED →
  ∃ lock : bool,
    get_game_state py_int py_int_of_float (Some d)
      = ("live_q1", lock, Some (lg_total d)) ∧
    (lock = true ↔
     ∃ mins secs m s,
       PyStr.split ":" (lg_clock d) = [mins; secs] ∧
       py_int mins = Some m ∧ py_int_of_float secs = Some s ∧
       m * 60 + s ≤ 75 ∧ lg_total d < 50).
Proof.
  intros Hperiod Hquarter Hstatus. unfold get_game_state.
  rewrite Hperiod, Hquarter.
  rewrite (bool_decide_eq_false_2 (lg_status d = STATUS_SCHEDULED)) by done.
  simpl. eexists. split; [reflexivity|]. apply try_q1_lock_true.
Qed.

End ClassifierFacts.

Lemma get_game_state_live_q1_witness :
  ∃ lock : bool,
    get_game_state PyStr.int_of_decimal PyStr.int_of_float_decimal
      (Some late_q1_game) = ("live_q1", lock, Some 44) ∧
    (lock = true ↔
     ∃ mins secs m s,
       PyStr.split ":" "1:10" = [mins; secs] ∧
       PyStr.int_of_decimal mins = Some m ∧
       PyStr.int_of_float_decimal secs = Some s ∧
       m * 60 + s ≤ 75 ∧ 44 < 50).
Proof.
  apply (get_game_state_live_q1 PyStr.int_of_decimal PyStr.int_of_float_decimal
           late_q1_game); [reflexivity | reflexivity | discriminate].
Defined.

(** The flag on three clocks: 1:10 with 44 points locks, 1:20 does not,
    and a clock without a colon is ignored. *)
Example get_game_state_clocks :
  get_game_state PyStr.int_of_decimal PyStr.int_of_float_decimal
    (Some late_q1_game) = ("live_q1", true, Some 44) ∧
  get_game_state PyStr.int_of_decimal PyStr.int_of_float_decimal
    (Some (LiveGame "Boston" "Miami" 20 24 44 "🟢 LIVE" "Q1" "1:20" 1))
    = ("live_q1", false, Some 44) ∧
  get_game_state PyStr.int_of_decimal PyStr.int_of_float_decimal
    (Some (LiveGame "Boston" "Miami" 20 24 44 "🟢 LIVE" "Q1" "45.3" 1))
    = ("live_q1", false, Some 44).
Proof. split_and!; reflexivity. Qed.

(** ** Game dates *)



#[local] Arguments PyStr.is_digit : simpl never.




(** A code shorter than the date it should carry is not rejected
    either. *)
Example parse_game_date_short_code :
  parse_game_date "26" = Some "2026-01-" ∧ parse_game_date "" = Some "20-01-".
Proof. split; reflexivity. Qed.

(** * Further properties of the page's code *)

(** ** Tracker: frame, detection window, clearing *)

Section TrackerMore.
Import Tracker Page.

Implicit Types (st : session_state) (ticker : string) (c : call).
Implicit Types (price p th w now d : Z).

(** [check_price_spike] by cases on the old samples of its ticker. *)
Lemma check_price_spike_cases ticker p th w now st :
  check_price_spike ticker p th w now st =
  match old_samples ticker w now st with
  | [] => ((false, 0), init_price_history st)
  | base :: _ =>
    if bool_decide (th ≤ p - base.2)
    then ((true, p - base.2), with_alert ticker st)
    else ((false, p - base.2), init_price_history st)
  end.
Proof.
  unfold old_samples, history_of, check_price_spike. simpl.
  rewrite history_dict_init.
  destruct (history_dict st !! ticker) as [hist|]; simpl; [|done].
  destruct (filter _ hist) as [|base old]; [done|].
  case_bool_decide; [|done]. by rewrite alerts_dict_init.
Qed.

Lemma history_dict_check_price_spike ticker p th w now st :
  history_dict (check_price_spike ticker p th w now st).2 = history_dict st.
Proof.
  rewrite check_price_spike_cases.
  destruct (old_samples ticker w now st) as [|base old];
    [apply history_dict_init|].
  case_bool_decide; [done | apply history_dict_init].
Qed.

Lemma history_dict_clear_spike ticker st :
  history_dict (clear_spike ticker st) = history_dict st.
Proof.
  unfold clear_spike.
  destruct (alerts_dict (init_price_history st) !! ticker);
    [simpl|]; apply history_dict_init.
Qed.

Lemma history_of_record_price_ne ticker ticker' price now st :
  ticker ≠ ticker' →
  history_of ticker' (record_price ticker price now st) = history_of ticker' st.
Proof.
  intros Hne. unfold history_of, record_price.
  rewrite history_dict_init. unfold history_dict at 1. cbn [price_history].
  rewrite !lookup_insert_ne by done.
  destruct (history_dict st !! ticker); [done|]. by rewrite lookup_insert_ne.
Qed.

(** X4. A call about one ticker leaves every other ticker as it was: the
    same stored history and the same answer of [is_spiked]; so does
    [clear_spike], which keeps the history of its own ticker too. *)
Theorem tracker_frame c ticker ticker' st :
  call_ticker c ≠ ticker' → ticker ≠ ticker' →
  history_of ticker' (run_call c st) = history_of ticker' st ∧
  (is_spiked ticker' (run_call c st)).1 = (is_spiked ticker' st).1 ∧
  history_of ticker' (clear_spike ticker st) = history_of ticker' st ∧
  (is_spiked ticker' (clear_spike ticker st)).1 = (is_spiked ticker' st).1 ∧
  history_of ticker (clear_spike ticker st) = history_of ticker st.
Proof.
  intros Hc Hne. split_and!.
  - destruct c as [t price now|t p th w now|t]; simpl in *.
    + by apply history_of_record_price_ne.
    + unfold history_of. by rewrite history_dict_check_price_spike.
    + unfold history_of, is_spiked. simpl. by rewrite history_dict_init.
  - unfold is_spiked; simpl. rewrite !alerts_dict_init. f_equal.
    destruct c as [t price now|t p th w now|t]; simpl in *.
    + by rewrite record_price_alerts.
    + destruct (check_price_spike_alerts t p th w now st) as [-> | ->];
        [done | by rewrite lookup_insert_ne].
    + by rewrite alerts_dict_init.
  - unfold history_of. by rewrite history_dict_clear_spike.
  - unfold is_spiked, clear_spike; simpl. rewrite !alerts_dict_init.
    destruct (alerts_dict st !! ticker); [|by rewrite alerts_dict_init].
    unfold alerts_dict at 1; simpl. by rewrite lookup_insert_ne.
  - unfold history_of. by rewrite history_dict_clear_spike.
Qed.

Lemma tracker_frame_witness :
  history_of "T2" (run_call (RecordPrice "T1" 50 40000000) scenario_state)
    = history_of "T2" scenario_state ∧
  (is_spiked "T2" (run_call (RecordPrice "T1" 50 40000000) scenario_state)).1
    = (is_spiked "T2" scenario_state).1.
Proof.
  destruct (tracker_frame (RecordPrice "T1" 50 40000000) "T1" "T2" scenario_state)
    as (Hhist & Halert & _); [discriminate | discriminate | by split].
Defined.

(** X5. Clearing an alert does not reset the detector: histories stay, so
    the check that raised the alert raises it again with the same
    delta when it is repeated after [clear_spike]. *)
Theorem clear_spike_keeps_detector ticker p th w now st d st1 :
  check_price_spike ticker p th w now st = ((true, d), st1) →
  let again := check_price_spike ticker p th w now (clear_spike ticker st1) in
  again.1 = (true, d) ∧ (is_spiked ticker again.2).1 = true.
Proof.
  intros Hfirst again.
  assert (old_samples ticker w now (clear_spike ticker st1)
          = old_samples ticker w now st) as Hold.
  { unfold old_samples, history_of. rewrite history_dict_clear_spike.
    replace st1 with (check_price_spike ticker p th w now st).2
      by (by rewrite Hfirst).
    by rewrite history_dict_check_price_spike. }
  subst again. rewrite check_price_spike_cases in Hfirst |- *.
  rewrite Hold. destruct (old_samples ticker w now st) as [|base old];
    [discriminate|].
  case_bool_decide; [|discriminate]. injection Hfirst as <- _.
  split; [done|]. apply is_spiked_alerted. unfold alerted, with_alert. simpl.
  apply lookup_insert_eq.
Qed.

Lemma clear_spike_keeps_detector_witness :
  let st1 := (check_price_spike "T1" 67 5 30 31000000 scenario_state).2 in
  (check_price_spike "T1" 67 5 30 31000000 (clear_spike "T1" st1)).1 = (true, 7).
Proof.
  intros st1.
  apply (clear_spike_keeps_detector "T1" 67 5 30 31000000 scenario_state 7 st1).
  vm_compute. reflexivity.
Defined.

(** X6. The page's step on a market's price. The spike box is shown exactly
    when the ticker is alerted after the step. An alert that is new
    needs a sample of the ticker stored before the step, more than 30
    and less than 120 seconds old, whose price is at least 5 cents
    below the current one; the first price seen for a ticker never
    raises one. *)
Theorem observe_price_new_alert ticker price now1 now2 st flag delta st' :
  observe_price ticker price now1 now2 st = ((flag, delta), st') →
  flag = (is_spiked ticker st').1 ∧
  ((is_spiked ticker st).1 = false → flag = true →
   ∃ t0 p0, (t0, p0) ∈ history_of ticker st ∧
     now1 - timedelta 120 < t0 ∧ t0 ≤ now2 - timedelta 30 ∧
     delta = price - p0 ∧ 5 ≤ delta).
Proof.
  unfold observe_price. rewrite check_price_spike_cases.
  set (st_r := record_price ticker price now1 st).
  destruct (old_samples ticker 30 now2 st_r) as [|base old] eqn:Hold.
  - unfold is_spiked; simpl. rewrite !alerts_dict_init. intros [= <- <- <-].
    unfold is_spiked; simpl. rewrite !alerts_dict_init. split; [done|].
    subst st_r. rewrite record_price_alerts. intros -> [=].
  - assert (base ∈ old_samples ticker 30 now2 st_r) as Hbase
      by (rewrite Hold; left).
    apply list_elem_of_filter in Hbase as [Hcut Hbase].
    subst st_r. rewrite history_of_record_price in Hbase.
    apply list_elem_of_filter in Hbase as [Hret Hbase].
    case_bool_decide as Hth.
    + intros [= <- <- <-]. split.
      { symmetry. apply is_spiked_alerted. unfold alerted, with_alert. simpl.
        apply lookup_insert_eq. }
      intros _ _. apply elem_of_app in Hbase as [Hbase|Hbase].
      * exists base.1, base.2. by destruct base.
      * apply list_elem_of_singleton in Hbase. subst base. simpl in Hth. lia.
    + unfold is_spiked; simpl. rewrite !alerts_dict_init. intros [= <- <- <-].
      unfold is_spiked; simpl. rewrite !alerts_dict_init. split; [done|].
      rewrite record_price_alerts. intros -> [=].
Qed.

Lemma observe_price_new_alert_witness :
  ∃ t0 p0, (t0, p0) ∈ history_of "T1" (record_price "T1" 60 0 fresh_session) ∧
    31000000 - timedelta 120 < t0 ∧ t0 ≤ 31000005 - timedelta 30 ∧
    7 = 67 - p0 ∧ 5 ≤ 7.
Proof.
  eapply (observe_price_new_alert "T1" 67 31000000 31000005
            (record_price "T1" 60 0 fresh_session) true 7).
  - vm_compute. reflexivity.
  - reflexivity.
  - reflexivity.
Defined.

Lemma filter_none {A} (P : A → Prop) `{!∀ x, Decision (P x)} (l : list A) :
  Forall (λ x, ¬ P x) l → filter P l = [].
Proof.
  induction 1 as [|x l Hx _ IH]; [done|].
  by rewrite filter_cons, decide_False.
Qed.

(** X7. The sidebar. It counts no active spike exactly when [is_spiked] is
    false for every ticker. [Clear All Spikes] makes it false for every
    ticker, brings the count to zero and keeps all histories. *)
Theorem sidebar_spikes st :
  (active_spikes st = 0%nat ↔ ∀ ticker, (is_spiked ticker st).1 = false) ∧
  (∀ ticker, (is_spiked ticker (clear_all_spikes st)).1 = false) ∧
  active_spikes (clear_all_spikes st) = 0%nat ∧
  history_dict (clear_all_spikes st) = history_dict st.
Proof.
  split_and!.
  - unfold active_spikes, is_spiked. simpl. rewrite alerts_dict_init.
    rewrite length_zero_iff_nil. split.
    + intros Hnone ticker.
      destruct (alerts_dict st !! ticker) as [[|]|] eqn:Hlook; try done.
      exfalso. eapply (filter_nil_not_elem_of _ _ true Hnone); [done|].
      apply list_elem_of_fmap. exists (ticker, true). split; [done|].
      by apply elem_of_map_to_list.
    + intros Hall. apply filter_none, Forall_forall.
      intros v [[ticker v'] [Hv Hin]]%list_elem_of_fmap Htrue.
      simpl in Hv. subst v v'.
      apply elem_of_map_to_list in Hin. specialize (Hall ticker).
      by rewrite Hin in Hall.
  - intros ticker. by unfold is_spiked, clear_all_spikes.
  - by unfold active_spikes, clear_all_spikes.
  - unfold clear_all_spikes. by destruct st as [[h|] a].
Qed.

End TrackerMore.

(** ** Classifier, live scores and the bid box *)

Section ClassifierMore.
Import Tracker Page.

Variable py_int : string → option Z.
Variable py_int_of_float : string → option Z.

Local Abbreviation game_state_of := (get_game_state py_int py_int_of_float).

Lemma get_game_state_states (live_data : option live_game) :
  (game_state_of live_data).1.1 ∈ ["pregame"; "live_q1"; "post_q1"].
Proof.
  unfold get_game_state. destruct live_data as [d|]; [|set_solver].
  repeat case_match; set_solver.
Qed.

(** X8. [get_game_state] answers one of the three states. The lock flag is
    set only in state [live_q1], and then the total is below 50 and the
    clock holds at most 75 seconds. The Q1 total is [None] exactly in
    state [pregame], and otherwise it is the total of the snapshot. *)
Theorem get_game_state_invariants (live_data : option live_game) :
  let r := game_state_of live_data in
  r.1.1 ∈ ["pregame"; "live_q1"; "post_q1"] ∧
  (r.1.2 = true →
     r.1.1 = "live_q1" ∧
     ∃ d mins secs m s, live_data = Some d ∧ lg_total d < 50 ∧
       PyStr.split ":" (lg_clock d) = [mins; secs] ∧
       py_int mins = Some m ∧ py_int_of_float secs = Some s ∧
       m * 60 + s ≤ 75) ∧
  (r.2 = None ↔ r.1.1 = "pregame") ∧
  (∀ total, r.2 = Some total → ∃ d, live_data = Some d ∧ total = lg_total d).
Proof.
  intros r. split; [apply get_game_state_states|]. subst r.
  unfold get_game_state. destruct live_data as [d|];
    [|split_and!; [done | done | by intros ? [=]]].
  destruct (bool_decide (lg_period d = 0) || _); simpl;
    [split_and!; [done | done | by intros ? [=]]|].
  destruct (bool_decide (lg_period d = 1)); simpl.
  - destruct (PyStr.contains "End" (lg_quarter d)); simpl.
    + split_and!; [done | done | intros ? [= <-]; by exists d].
    + split_and!; [|done | intros ? [= <-]; by exists d].
      intros (mins & secs & m & s & ? & ? & ? & ? & ?)%try_q1_lock_true.
      split; [done|]. by exists d, mins, secs, m, s.
  - destruct (bool_decide (1 < lg_period d)); simpl.
    + split_and!; [done | done | intros ? [= <-]; by exists d].
    + split_and!; [done | done | by intros ? [=]].
Qed.

Lemma espn_status_scheduled (status_type : string) (period : Z) :
  (espn_status status_type period).1 = STATUS_SCHEDULED ↔
  status_type = "STATUS_SCHEDULED".
Proof.
  unfold espn_status. repeat case_decide; simpl; split; try done; by intros ->.
Qed.

(** X9. How the feed's status types are classified. A scheduled event is
    pregame whatever its period. Otherwise period 0 is pregame, period
    1 is [live_q1] while in progress and [post_q1] at the end of the
    period, and any later period is [post_q1]; the Q1 total handed on
    is the sum of the two scores. *)
Theorem espn_game_state (away home : string) (away_score home_score : Z)
    (status_type clock : string) (period : Z) :
  let g := (espn_game away home away_score home_score status_type clock period).2 in
  let total := away_score + home_score in
  (status_type = "STATUS_SCHEDULED" →
     game_state_of (Some g) = ("pregame", false, None)) ∧
  (status_type ≠ "STATUS_SCHEDULED" → period = 0 →
     game_state_of (Some g) = ("pregame", false, None)) ∧
  (status_type = "STATUS_IN_PROGRESS" → period = 1 →
     (game_state_of (Some g)).1.1 = "live_q1" ∧
     (game_state_of (Some g)).2 = Some total) ∧
  (status_type = "STATUS_END_PERIOD" → period = 1 →
     game_state_of (Some g) = ("post_q1", false, Some total)) ∧
  (status_type ≠ "STATUS_SCHEDULED" → 1 < period →
     game_state_of (Some g) = ("post_q1", false, Some total)).
Proof.
  unfold espn_game.
  pose proof (espn_status_scheduled status_type period) as Hsched.
  split_and!.
  - intros ->. simpl. unfold get_game_state. simpl.
    by rewrite orb_true_r.
  - intros Hs ->. destruct (espn_status status_type 0) as [status quarter].
    done.
  - by intros -> ->.
  - by intros -> ->.
  - intros Hs Hp.
    destruct (espn_status status_type period) as [status quarter].
    simpl in *. unfold get_game_state. cbn [lg_period lg_status lg_quarter
      lg_total lg_clock].
    rewrite (bool_decide_eq_false_2 (period = 0)) by lia.
    rewrite (bool_decide_eq_false_2 (period = 1)) by lia.
    rewrite (bool_decide_eq_true_2 (1 < period)) by lia.
    rewrite (bool_decide_eq_false_2 (status = STATUS_SCHEDULED))
      by (intros Hst; by apply Hs, Hsched).
    done.
Qed.

(** X10. [get_live_game_data] finds a game under either order of the two
    teams and nowhere else. A game found under the reversed key comes
    back with the teams as asked and the two scores swapped, and is
    classified as the stored game is. *)
Theorem get_live_game_data_lookup (away home : string)
    (live_scores : gmap string live_game) :
  let direct := live_scores !! (away +:+ "@" +:+ home) in
  let reversed := live_scores !! (home +:+ "@" +:+ away) in
  (get_live_game_data away home live_scores = None ↔
     direct = None ∧ reversed = None) ∧
  (∀ g, direct = Some g → get_live_game_data away home live_scores = Some g) ∧
  (∀ g, direct = None → reversed = Some g →
     ∃ g', get_live_game_data away home live_scores = Some g' ∧
       lg_away_team g' = away ∧ lg_home_team g' = home ∧
       lg_away_score g' = lg_home_score g ∧
       lg_home_score g' = lg_away_score g ∧
       lg_total g' = lg_total g ∧
       game_state_of (Some g') = game_state_of (Some g)).
Proof.
  unfold get_live_game_data. simpl. split_and!.
  - destruct (live_scores !! _) as [g|]; [split; [done | by intros [? _]]|].
    destruct (live_scores !! _) as [g|]; split; try done. by intros [_ ?].
  - by intros g ->.
  - intros g -> ->. eexists. by split_and!.
Qed.

End ClassifierMore.

Lemma espn_game_state_witness :
  let g := (espn_game "Boston" "Miami" 20 24 "STATUS_END_PERIOD" "0.0" 1).2 in
  get_game_state PyStr.int_of_decimal PyStr.int_of_float_decimal (Some g)
    = ("post_q1", false, Some 44).
Proof.
  destruct (espn_game_state PyStr.int_of_decimal PyStr.int_of_float_decimal
              "Boston" "Miami" 20 24 "STATUS_END_PERIOD" "0.0" 1)
    as (_ & _ & _ & Hend & _).
  apply Hend; reflexivity.
Defined.

Lemma get_live_game_data_lookup_witness :
  ∃ g', get_live_game_data "Miami" "Boston"
          {["Boston@Miami" := late_q1_game]} = Some g' ∧
    lg_away_team g' = "Miami" ∧ lg_home_team g' = "Boston" ∧
    lg_away_score g' = 24 ∧ lg_home_score g' = 20 ∧ lg_total g' = 44 ∧
    get_game_state PyStr.int_of_decimal PyStr.int_of_float_decimal (Some g')
      = get_game_state PyStr.int_of_decimal PyStr.int_of_float_decimal
          (Some late_q1_game).
Proof.
  destruct (get_live_game_data_lookup PyStr.int_of_decimal
              PyStr.int_of_float_decimal "Miami" "Boston"
              {["Boston@Miami" := late_q1_game]}) as (_ & _ & Hrev).
  apply (Hrev late_q1_game); by vm_compute.
Defined.

(** ** The bid and its box *)

(** X11. Every bid stays within [max (no_ask - 3) 60], so it is below an ask
    above 60 cents. Only the early live bid can go under the floor of
    60, and it never exceeds 75. Below 60 cents the floor puts the
    pregame bid above the ask. *)
Theorem recommended_bid_bounds (no_ask : Z) game_state q1_total
    (spiked lock : bool) (bid : Z) :
  bid_of (calculate_recommended_bid no_ask game_state q1_total spiked lock)
    = Some bid →
  bid ≤ Z.max (no_ask - 3) 60 ∧
  (60 < no_ask → bid < no_ask) ∧
  (game_state ≠ "live_q1" ∨ lock = false → 60 ≤ bid) ∧
  (game_state = "live_q1" → lock = true → bid = Z.min (no_ask - 5) 75) ∧
  (game_state = "pregame" → no_ask < 60 → no_ask < bid).
Proof.
  unfold calculate_recommended_bid, bid_of.
  destruct spiked; [discriminate|].
  repeat case_decide; subst; try done.
  - intros [= <-]. split_and!; intros; first [done | lia].
  - destruct lock; intros [= <-]; split_and!; intros;
      first [done | lia | destruct_or!; done | reflexivity].
  - destruct (truthy q1_total && at_least 55 q1_total); [discriminate|].
    destruct (Z.leb_spec no_ask 75); [discriminate|].
    intros [= <-]. split_and!; intros; first [done | lia].
  - intros [= <-]. split_and!; intros; first [done | lia].
Qed.

Lemma recommended_bid_bounds_witness :
  bid_of (calculate_recommended_bid 50 "pregame" None false false) = Some 60 ∧
  50 < 60.
Proof.
  split; [reflexivity|].
  destruct (recommended_bid_bounds 50 "pregame" None false false 60)
    as (_ & _ & _ & _ & Habove); [reflexivity|].
  by apply Habove.
Defined.

Section BidMore.
Import Tracker Page.

Variable py_int : string → option Z.
Variable py_int_of_float : string → option Z.

(** X12. A recommendation without a bid is the spike stop, ASK ACCEPTABLE or
    NO TRADE: the plain box of [render_bid_recommendation] is never
    drawn. And since [get_game_state] only answers the three states,
    the page never shows the Default Bid. *)
Theorem render_bid_recommendation_boxes (no_ask : Z) game_state q1_total
    (spiked lock : bool) (live_data : option live_game) (ticker : string)
    (st : session_state) :
  rendered_box spiked
    (calculate_recommended_bid no_ask game_state q1_total spiked lock)
    ≠ PlainBox ∧
  label_of (bid_recommendation py_int py_int_of_float no_ask live_data ticker st).1
    ≠ "Default Bid".
Proof.
  split.
  - unfold rendered_box, calculate_recommended_bid, bid_of, label_of.
    destruct spiked; [done|].
    repeat case_decide; try done.
    + by destruct lock.
    + destruct (truthy q1_total && at_least 55 q1_total); [done|].
      by destruct (no_ask <=? 75).
  - unfold bid_recommendation.
    pose proof (get_game_state_states py_int py_int_of_float live_data) as Hstate.
    destruct (get_game_state py_int py_int_of_float live_data)
      as [[game_state' lock'] q1_total']. simpl in Hstate.
    unfold is_spiked, calculate_recommended_bid, label_of. simpl.
    destruct (default false _); [done|].
    repeat (apply elem_of_cons in Hstate as [-> | Hstate]).
    + done.
    + simpl. by destruct lock'.
    + simpl. destruct (truthy q1_total' && at_least 55 q1_total'); [done|].
      by destruct (no_ask <=? 75).
    + by apply elem_of_nil in Hstate.
Qed.

(** X13. The kill switch end to end: once [check_price_spike] has triggered
    for a ticker, the page's recommendation for it is DO NOT BID with
    no bid, whatever the ask and the game, after any further tracker
    calls, and the box drawn is the spike error. *)
Theorem kill_switch_blocks_bid (ticker : string) (p th w now d : Z)
    (st st1 : session_state) (cs : list call) (no_ask : Z)
    (live_data : option live_game) :
  check_price_spike ticker p th w now st = ((true, d), st1) →
  let r := (bid_recommendation py_int py_int_of_float no_ask live_data ticker
              (run_calls cs st1)).1 in
  r = (None, "🛑 DO NOT BID", "Market moved too fast — wait for cooldown") ∧
  rendered_box (is_spiked ticker (run_calls cs st1)).1 r = SpikeError.
Proof.
  intros Htrig.
  assert ((is_spiked ticker (run_calls cs st1)).1 = true) as Hspiked.
  { apply is_spiked_alerted, run_calls_alerted.
    by eapply check_price_spike_triggered. }
  cbv zeta. unfold bid_recommendation.
  destruct (get_game_state py_int py_int_of_float live_data)
    as [[game_state lock] q1_total].
  destruct (is_spiked ticker (run_calls cs st1)) as [spiked st2].
  simpl in Hspiked. by subst spiked.
Qed.

End BidMore.

Lemma kill_switch_blocks_bid_witness :
  let st1 := (Tracker.check_price_spike "T1" 67 5 30 31000000
                Tracker.scenario_state).2 in
  (Page.bid_recommendation PyStr.int_of_decimal PyStr.int_of_float_decimal
     90 None "T1" (Tracker.run_calls Tracker.scenario_calls st1)).1
  = (None, "🛑 DO NOT BID", "Market moved too fast — wait for cooldown").
Proof.
  intros st1.
  apply (kill_switch_blocks_bid PyStr.int_of_decimal PyStr.int_of_float_decimal
           "T1" 67 5 30 31000000 7 Tracker.scenario_state st1
           Tracker.scenario_calls 90 None).
  vm_compute. reflexivity.
Defined.

(** ** Confidence: gates, severity, monotonicity *)

(** The score by cases: zero without a Q1 total, on the Q1 veto and on
    an ask above the ceiling, and the sum of the five rules otherwise. *)
Lemma confidence_score_cases (m : market) (q : Z) (watchlist : gset string)
    (spread_est : Z) :
  let ceiling := (get_price_tolerance (Some q)).1 in
  score_of (calculate_confidence m (Some q) watchlist spread_est) =
  if (55 <=? q) || (ceiling <? no_ask m) then 0
  else q1_points q + watchlist_points watchlist m
       + price_points (ceiling - no_ask m)
       + threshold_points (threshold m) + spread_points spread_est.
Proof.
  cbv zeta. destruct (Z.leb_spec 55 q) as [Hq|Hq]; cbn [orb].
  { unfold calculate_confidence, at_least.
    by rewrite (proj2 (Z.leb_le 55 q) Hq). }
  destruct (Z.ltb_spec (get_price_tolerance (Some q)).1 (no_ask m)) as [Hask|Hask].
  - unfold calculate_confidence, at_least.
    rewrite (proj2 (Z.leb_gt 55 q) Hq).
    destruct (get_price_tolerance (Some q)) as [max_price regime].
    cbn [fst] in Hask. rewrite (proj2 (Z.ltb_lt _ _) Hask).
    rewrite bool_decide_eq_true_2 by done. reflexivity.
  - exact (proj1 (confidence_scoring_path m q watchlist spread_est Hq Hask)).
Qed.

(** The severity by cases, next to the score. *)
Lemma confidence_severity_cases (m : market) (q : Z) (watchlist : gset string)
    (spread_est : Z) :
  let ceiling := (get_price_tolerance (Some q)).1 in
  let c := calculate_confidence m (Some q) watchlist spread_est in
  severity_of c =
  if (55 <=? q) || (ceiling <? no_ask m) then "red"
  else if 60 <=? score_of c then "green"
  else if 45 <=? score_of c then "yellow" else "orange".
Proof.
  cbv zeta. unfold calculate_confidence, at_least.
  destruct (55 <=? q); [done|]. cbn [orb].
  destruct (get_price_tolerance (Some q)) as [max_price regime]. cbn [fst].
  rewrite bool_decide_eq_true_2 by done. cbn [andb].
  destruct (max_price <? no_ask m); [done|].
  destruct (on_watchlist watchlist (away_team m) || on_watchlist watchlist (home_team m));
    cbv zeta beta iota;
    set (score := (_ + spread_points spread_est));
    unfold severity_of, score_of;
    destruct (Z.leb_spec 75 score), (Z.leb_spec 60 score),
      (Z.leb_spec 45 score); cbn [fst snd];
    repeat match goal with
    | |- context [?a <=? score] =>
      first [rewrite (proj2 (Z.leb_le a score)) by lia
            | rewrite (proj2 (Z.leb_gt a score)) by lia]
    end; first [done | lia].
Qed.

Lemma rule_points_bounds (q buffer t s : Z) (watchlist : gset string)
    (m : market) :
  15 ≤ q1_points q ≤ 30 ∧ 0 ≤ watchlist_points watchlist m ≤ 20 ∧
  5 ≤ price_points buffer ≤ 20 ∧ 3 ≤ threshold_points t ≤ 10 ∧
  2 ≤ spread_points s ≤ 8.
Proof.
  unfold q1_points, watchlist_points, price_points, threshold_points,
    spread_points.
  repeat case_match; lia.
Qed.

(** X14. The severity tells the score band. Gray means no Q1 total, red
    means a veto (Q1 at 55 or more, or an ask above the ceiling of the
    Q1 band); both carry score 0. Every other result scores at least
    25, and is green from 60, yellow from 45 to 59 and orange below. *)
Theorem confidence_severity (m : market) q1_total (watchlist : gset string)
    (spread_est : Z) :
  let c := calculate_confidence m q1_total watchlist spread_est in
  (severity_of c = "gray" ↔ q1_total = None) ∧
  (severity_of c = "red" ↔
     ∃ q, q1_total = Some q ∧
       (55 ≤ q ∨ (get_price_tolerance (Some q)).1 < no_ask m)) ∧
  (severity_of c = "gray" ∨ severity_of c = "red" ↔ score_of c = 0) ∧
  (severity_of c = "green" ↔ 60 ≤ score_of c) ∧
  (severity_of c = "yellow" ↔ 45 ≤ score_of c < 60) ∧
  (severity_of c = "orange" ↔ 25 ≤ score_of c < 45).
Proof.
  destruct q1_total as [q|]; cbv zeta.
  2: { assert (calculate_confidence m None watchlist spread_est
               = (0, "⏳ WAIT FOR Q1", "gray", [])) as -> by reflexivity.
       unfold severity_of, score_of; cbn [fst snd].
       split_and!; split; intros H;
         first [done | lia | by left | by destruct H as (q & [=] & _)]. }
  pose proof (confidence_severity_cases m q watchlist spread_est) as Hsev.
  pose proof (confidence_score_cases m q watchlist spread_est) as Hscore.
  pose proof (rule_points_bounds q ((get_price_tolerance (Some q)).1 - no_ask m)
                (threshold m) spread_est watchlist m) as Hpts.
  cbv zeta in Hsev, Hscore.
  assert ((∃ q0, Some q = Some q0 ∧
             (55 ≤ q0 ∨ (get_price_tolerance (Some q0)).1 < no_ask m)) ↔
          (55 <=? q) || ((get_price_tolerance (Some q)).1 <? no_ask m) = true)
    as Hveto.
  { rewrite orb_true_iff, Z.leb_le, Z.ltb_lt. split.
    - by intros (q0 & [= <-] & H).
    - intros H. by exists q. }
  rewrite Hveto, Hsev. clear Hveto Hsev.
  set (score := score_of _) in *. clearbody score.
  destruct ((55 <=? q) || _).
  - subst score.
    split_and!; split; intros; first [done | lia | by right].
  - destruct (Z.leb_spec 60 score), (Z.leb_spec 45 score);
      split_and!; split; intros; first [done | lia | destruct_or!; done].
Qed.

(** X15. The price status next to the tolerance bands: OK means the ask is
    within the pregame ceiling; Expensive means it is above the ceiling
    of every Q1 band, and then every known Q1 total gives score 0 and
    severity red. An ask of at most 70 is never above the ceiling when
    the Q1 total is below 55. *)
Theorem price_status_gates (m : market) (watchlist : gset string)
    (spread_est : Z) :
  (Page.p_status (no_ask m) = "🟢 OK" ↔
     no_ask m ≤ (get_price_tolerance None).1) ∧
  (Page.p_status (no_ask m) = "🔴 Expensive" ↔
     ∀ q, (get_price_tolerance (Some q)).1 < no_ask m) ∧
  (Page.p_status (no_ask m) = "🔴 Expensive" →
     ∀ q, let c := calculate_confidence m (Some q) watchlist spread_est in
          score_of c = 0 ∧ severity_of c = "red") ∧
  (no_ask m ≤ 70 →
     ∀ q, q < 55 →
       25 ≤ score_of (calculate_confidence m (Some q) watchlist spread_est)).
Proof.
  assert (Page.p_status (no_ask m) = "🔴 Expensive" ↔ 78 < no_ask m) as Hexp.
  { unfold Page.p_status.
    destruct (Z.leb_spec (no_ask m) 68), (Z.leb_spec (no_ask m) 78);
      split; first [done | lia]. }
  assert (∀ q, (get_price_tolerance (Some q)).1 ≤ 78) as Hceil.
  { intros q. unfold get_price_tolerance. repeat case_match; simpl; lia. }
  split_and!.
  - unfold Page.p_status. simpl.
    destruct (Z.leb_spec (no_ask m) 68), (Z.leb_spec (no_ask m) 78);
      split; first [done | lia].
  - rewrite Hexp. split.
    + intros Hask q. specialize (Hceil q). lia.
    + intros Hall. by specialize (Hall 0).
  - intros Hask%Hexp q. cbv zeta.
    pose proof (confidence_severity_cases m q watchlist spread_est) as Hsev.
    pose proof (confidence_score_cases m q watchlist spread_est) as Hscore.
    cbv zeta in *. rewrite Hsev, Hscore. specialize (Hceil q).
    rewrite (proj2 (Z.ltb_lt _ (no_ask m))) by lia.
    by rewrite orb_true_r.
  - intros Hask q Hq.
    pose proof (confidence_score_cases m q watchlist spread_est) as Hscore.
    pose proof (rule_points_bounds q ((get_price_tolerance (Some q)).1 - no_ask m)
                  (threshold m) spread_est watchlist m) as Hpts.
    cbv zeta in Hscore. rewrite Hscore.
    rewrite (proj2 (Z.leb_gt 55 q)) by done.
    assert (70 ≤ (get_price_tolerance (Some q)).1) as Hfloor.
    { unfold get_price_tolerance.
      destruct (Z.ltb_spec q 48), (Z.ltb_spec q 50), (Z.ltb_spec q 55);
        simpl; lia. }
    rewrite (proj2 (Z.ltb_ge _ (no_ask m))) by lia. cbn [orb]. lia.
Qed.

Lemma price_status_gates_witness :
  no_ask strike_252_market = 60 ∧
  25 ≤ score_of (calculate_confidence strike_252_market (Some 52) ∅ 5).
Proof.
  destruct (price_status_gates strike_252_market ∅ 5) as (_ & _ & _ & Hok).
  split; [reflexivity|]. apply Hok; [simpl; lia | lia].
Defined.

Lemma ceiling_antitone (q q' : Z) :
  q ≤ q' → (get_price_tolerance (Some q')).1 ≤ (get_price_tolerance (Some q)).1.
Proof.
  unfold get_price_tolerance. intros Hle.
  destruct (Z.ltb_spec q 48), (Z.ltb_spec q 50), (Z.ltb_spec q 55),
    (Z.ltb_spec q' 48), (Z.ltb_spec q' 50), (Z.ltb_spec q' 55); simpl; lia.
Qed.

Lemma q1_points_antitone (q q' : Z) : q ≤ q' → q1_points q' ≤ q1_points q.
Proof.
  unfold q1_points. intros Hle.
  destruct (Z.ltb_spec q 45), (Z.ltb_spec q 48), (Z.ltb_spec q 50),
    (Z.ltb_spec q' 45), (Z.ltb_spec q' 48), (Z.ltb_spec q' 50); lia.
Qed.

Lemma price_points_monotone (b b' : Z) :
  b ≤ b' → price_points b ≤ price_points b'.
Proof.
  unfold price_points. intros Hle.
  destruct (Z.leb_spec 10 b), (Z.leb_spec 6 b), (Z.leb_spec 3 b),
    (Z.leb_spec 10 b'), (Z.leb_spec 6 b'), (Z.leb_spec 3 b'); lia.
Qed.

(** X16. A higher ask or a higher Q1 total never raises the confidence
    score: for the same teams, threshold, watchlist and spread
    estimate, the score at [(q', no_ask')] is at most the score at
    [(q, no_ask)] whenever [q <= q'] and [no_ask <= no_ask']. *)
Theorem confidence_score_antitone (m m' : market) (q q' : Z)
    (watchlist : gset string) (spread_est : Z) :
  away_team m = away_team m' → home_team m = home_team m' →
  threshold m = threshold m' →
  q ≤ q' → no_ask m ≤ no_ask m' →
  score_of (calculate_confidence m' (Some q') watchlist spread_est) ≤
  score_of (calculate_confidence m (Some q) watchlist spread_est).
Proof.
  intros Haway Hhome Hthreshold Hq Hask.
  rewrite !confidence_score_cases. cbv zeta.
  pose proof (ceiling_antitone q q' Hq) as Hceil.
  pose proof (q1_points_antitone q q' Hq) as Hq1.
  pose proof (price_points_monotone
    ((get_price_tolerance (Some q')).1 - no_ask m')
    ((get_price_tolerance (Some q)).1 - no_ask m)) as Hprice.
  pose proof (rule_points_bounds q ((get_price_tolerance (Some q)).1 - no_ask m)
                (threshold m) spread_est watchlist m) as Hpts.
  assert (watchlist_points watchlist m' = watchlist_points watchlist m) as ->
    by (unfold watchlist_points; by rewrite Haway, Hhome).
  rewrite <- Hthreshold.
  destruct (Z.leb_spec 55 q), (Z.leb_spec 55 q'),
    (Z.ltb_spec (get_price_tolerance (Some q)).1 (no_ask m)),
    (Z.ltb_spec (get_price_tolerance (Some q')).1 (no_ask m'));
    cbn [orb]; lia.
Qed.

Lemma confidence_score_antitone_witness :
  score_of (calculate_confidence strike_252_market (Some 44) ∅ 5) = 65 ∧
  score_of (calculate_confidence strike_252_market (Some 49) ∅ 5) ≤
  score_of (calculate_confidence strike_252_market (Some 44) ∅ 5).
Proof.
  split; [reflexivity|].
  apply confidence_score_antitone; first [reflexivity | lia].
Defined.

(** X17. A team on the watchlist is worth exactly 20 points on the scoring
    path and nothing on a veto: it never turns a rejected market into
    a scored one. *)
Theorem confidence_watchlist_bonus (m : market) (q : Z)
    (on off : gset string) (spread_est : Z) :
  Page.on_watchlist_market on m = true →
  Page.on_watchlist_market off m = false →
  let with_team := score_of (calculate_confidence m (Some q) on spread_est) in
  let without := score_of (calculate_confidence m (Some q) off spread_est) in
  (q < 55 → no_ask m ≤ (get_price_tolerance (Some q)).1 →
     with_team = without + 20) ∧
  (55 ≤ q ∨ (get_price_tolerance (Some q)).1 < no_ask m →
     with_team = 0 ∧ without = 0).
Proof.
  unfold Page.on_watchlist_market. intros Hon Hoff. cbv zeta.
  rewrite !confidence_score_cases. cbv zeta.
  unfold watchlist_points. rewrite Hon, Hoff. split.
  - intros Hq Hask.
    rewrite (proj2 (Z.leb_gt 55 q)), (proj2 (Z.ltb_ge _ (no_ask m))) by done.
    cbn [orb]. lia.
  - intros [Hq|Hask].
    + by rewrite (proj2 (Z.leb_le 55 q)) by done.
    + rewrite (proj2 (Z.ltb_lt _ (no_ask m))) by done.
      by rewrite orb_true_r.
Qed.

Lemma confidence_watchlist_bonus_witness :
  score_of (calculate_confidence strike_252_market (Some 40) {["Miami"]} 5)
  = score_of (calculate_confidence strike_252_market (Some 40) ∅ 5) + 20.
Proof.
  apply (confidence_watchlist_bonus strike_252_market 40 {["Miami"]} ∅ 5);
    first [by vm_compute | lia | (simpl; lia)].
Defined.

(** ** The market list *)

Lemma insert_by_threshold_perm (x : market) (l : list market) :
  insert_by_threshold x l ≡ₚ x :: l.
Proof.
  induction l as [|y l IH]; simpl; [done|].
  destruct (threshold y <=? threshold x); [done|].
  rewrite IH. apply Permutation_swap.
Qed.

Lemma sort_by_threshold_desc_perm (l : list market) :
  sort_by_threshold_desc l ≡ₚ l.
Proof.
  unfold sort_by_threshold_desc. induction l as [|x l IH]; simpl; [done|].
  by rewrite insert_by_threshold_perm, IH.
Qed.

Lemma insert_by_threshold_sorted (x : market) (l : list market) :
  StronglySorted threshold_desc l →
  StronglySorted threshold_desc (insert_by_threshold x l).
Proof.
  unfold threshold_desc.
  induction 1 as [|y l Hl IH Hy]; simpl; [repeat constructor|].
  destruct (Z.leb_spec (threshold y) (threshold x)) as [Hle|Hgt].
  - constructor; [by constructor|]. constructor; [done|].
    eapply Forall_impl; [exact Hy|]. simpl. intros z Hz. lia.
  - constructor; [done|].
    rewrite insert_by_threshold_perm. constructor; [lia | done].
Qed.

Lemma sort_by_threshold_desc_sorted (l : list market) :
  StronglySorted threshold_desc (sort_by_threshold_desc l).
Proof.
  unfold sort_by_threshold_desc. induction l as [|x l IH]; simpl.
  - constructor.
  - by apply insert_by_threshold_sorted.
Qed.

(** What the loop keeps of a market record. *)
Lemma market_of_raw_kept (min_threshold : Z) (today : string)
    (raw : raw_market) (m : market) :
  market_of_raw min_threshold today raw = Returned (Some m) →
  ticker m = rm_ticker raw ∧ rm_event_ticker raw = Some (event_ticker m) ∧
  rm_floor_strike raw = Some (threshold m) ∧
  min_threshold ≤ threshold m ∧ threshold m ≠ 0 ∧
  volume m = rm_volume raw ∧
  ∃ game_code, game_code_of (event_ticker m) = Some game_code ∧
    parse_game_date game_code = Some today ∧
    (away_team m, home_team m) = parse_teams_from_ticker game_code.
Proof.
  unfold market_of_raw, game_code_of.
  destruct (rm_floor_strike raw) as [strike|]; [|done]. simpl.
  destruct (Z.eqb_spec strike 0); [done|]. simpl.
  destruct (Z.leb_spec min_threshold strike); [|done].
  destruct (rm_event_ticker raw) as [event|]; [|done].
  destruct (PyStr.split "-" event) as [|? [|game_code ?]] eqn:Hsplit;
    try done.
  case_decide as Hdate; [|done].
  destruct (parse_teams_from_ticker game_code) as [away home] eqn:Hteams.
  intros [= <-]. simpl. rewrite Hsplit. split_and!; try done.
  by exists game_code.
Qed.

(** The loop body raises exactly on the records of [raises_on], with the
    text of the [AttributeError]. *)
Lemma market_of_raw_raised (min_threshold : Z) (today : string)
    (m : raw_market) (msg : string) :
  market_of_raw min_threshold today m = Raised msg ↔
  raises_on min_threshold m ∧ msg = NONE_HAS_NO_SPLIT.
Proof.
  unfold market_of_raw, raises_on. cbv zeta.
  destruct (truthy (rm_floor_strike m)
            && at_least min_threshold (rm_floor_strike m)).
  - destruct (rm_event_ticker m) as [event|].
    + split; [done|]. by intros [[_ ?] _].
    + split; [by intros [= <-] | by intros [_ ->]].
  - split; [done|]. by intros [[? _] _].
Qed.

Lemma collect_markets_returned (min_threshold : Z) (today : string)
    (ms : list raw_market) :
  Forall (λ m, ¬ raises_on min_threshold m) ms →
  collect_markets min_threshold today ms
  = Returned (kept_markets min_threshold today ms).
Proof.
  unfold kept_markets. induction 1 as [|m ms Hm _ IH]; simpl; [done|].
  destruct (market_of_raw min_threshold today m) as [kept|msg] eqn:Hbody.
  - rewrite IH. by destruct kept.
  - by apply market_of_raw_raised in Hbody as [? _].
Qed.

Lemma collect_markets_raised (min_threshold : Z) (today : string)
    (ms : list raw_market) :
  Exists (raises_on min_threshold) ms →
  collect_markets min_threshold today ms = Raised NONE_HAS_NO_SPLIT.
Proof.
  induction ms as [|m ms IH]; intros Hex; [by inversion Hex|]. simpl.
  destruct (market_of_raw min_threshold today m) as [kept|msg] eqn:Hbody.
  - apply Exists_cons in Hex as [Hm|Hms].
    + assert (market_of_raw min_threshold today m = Raised NONE_HAS_NO_SPLIT)
        as Hraised by by apply market_of_raw_raised.
      congruence.
    + by rewrite IH.
  - by apply market_of_raw_raised in Hbody as [_ ->].
Qed.

(** X18. [fetch_extreme_totals] on what the request delivers, for an
    answer whose strikes, asks and volumes are JSON integers. Every
    failure inside the [try] gives no market and the text of the failure:
    a request that raises, a status other than 200 (["API Error: n"]), a
    body [resp.json()] cannot read, a null market list, and a market with
    a null event ticker whose strike passes the threshold test, which
    discards the markets collected before it. Otherwise there is no error
    and the result holds exactly the markets the loop keeps, each once, in
    descending order of threshold; every one of them has a nonzero strike
    of at least [min_threshold], an event ticker whose game code carries
    today's date, and the teams parsed from that game code. *)
Theorem fetch_extreme_totals_markets (min_threshold : Z) (today : string)
    (answer : outcome response) :
  let r := fetch_extreme_totals min_threshold today answer in
  (∀ msg, r.1.2 = Some msg → r.1.1 = []) ∧
  (∀ msg, answer = Raised msg → r.1.2 = Some msg) ∧
  (∀ resp, answer = Returned resp →
     (status_code resp ≠ 200 →
        r.1.2 = Some ("API Error: " +:+ pretty (status_code resp))) ∧
     (status_code resp = 200 →
        (∀ msg, resp_json resp = Raised msg → r.1.2 = Some msg) ∧
        (resp_json resp = Returned None → r.1.2 = Some NONE_NOT_ITERABLE) ∧
        (∀ ms, resp_json resp = Returned (Some ms) →
           (Exists (raises_on min_threshold) ms →
              r.1.2 = Some NONE_HAS_NO_SPLIT) ∧
           (Forall (λ m, ¬ raises_on min_threshold m) ms →
              r.1.2 = None ∧
              r.1.1 ≡ₚ kept_markets min_threshold today ms ∧
              StronglySorted threshold_desc r.1.1 ∧
              Forall (λ m,
                min_threshold ≤ threshold m ∧ threshold m ≠ 0 ∧
                ∃ game_code, game_code_of (event_ticker m) = Some game_code ∧
                  parse_game_date game_code = Some today ∧
                  (away_team m, home_team m)
                  = parse_teams_from_ticker game_code)
                r.1.1)))).
Proof.
  cbv zeta. split_and!.
  - unfold fetch_extreme_totals. intros msg.
    repeat case_match; simpl; done.
  - by intros msg ->.
  - intros resp ->. unfold fetch_extreme_totals.
    destruct (Z.eqb_spec (status_code resp) 200) as [Hok|Hbad]; simpl;
      (split; [done|]); [|done].
    intros _. split_and!.
    + by intros msg ->.
    + by intros ->.
    + intros ms ->. split.
      * intros Hex. by rewrite collect_markets_raised.
      * intros Hall. rewrite collect_markets_returned by done. simpl.
        split_and!.
        -- done.
        -- apply sort_by_threshold_desc_perm.
        -- apply sort_by_threshold_desc_sorted.
        -- apply Forall_forall. intros m Hm.
           rewrite sort_by_threshold_desc_perm in Hm.
           apply list_elem_of_omap in Hm as (raw & _ & Hkept).
           destruct (market_of_raw min_threshold today raw)
             as [kept|] eqn:Hbody; [|done]. subst kept.
           apply market_of_raw_kept in Hbody
             as (_ & _ & _ & Hmin & Hnz & _ & Hcode).
           done.
Qed.

Lemma fetch_extreme_totals_markets_witness :
  ((fetch_extreme_totals 245 "2026-01-15" yes_only_response).1.2 = None ∧
   StronglySorted threshold_desc
     (fetch_extreme_totals 245 "2026-01-15" yes_only_response).1.1) ∧
  (fetch_extreme_totals 245 "2026-01-15" null_ticker_response).1.2
  = Some NONE_HAS_NO_SPLIT ∧
  (fetch_extreme_totals 245 "2026-01-15" null_ticker_response).1.1 = [].
Proof.
  split; [|split].
  - destruct (fetch_extreme_totals_markets 245 "2026-01-15" yes_only_response)
      as (_ & _ & Hresp).
    destruct (Hresp _ eq_refl) as [_ Hok].
    destruct (Hok eq_refl) as (_ & _ & Hlist).
    destruct (Hlist _ eq_refl) as [_ Hkept].
    destruct Hkept as (Hnone & _ & Hsorted & _); [|by split].
    repeat constructor; unfold raises_on; simpl; intros [_ ?]; done.
  - destruct (fetch_extreme_totals_markets 245 "2026-01-15"
                null_ticker_response) as (_ & _ & Hresp).
    destruct (Hresp _ eq_refl) as [_ Hok].
    destruct (Hok eq_refl) as (_ & _ & Hlist).
    destruct (Hlist _ eq_refl) as [Hraise _].
    apply Hraise. apply Exists_cons_tl, Exists_cons_hd.
    unfold raises_on. by vm_compute.
  - destruct (fetch_extreme_totals_markets 245 "2026-01-15"
                null_ticker_response) as (Hempty & _).
    by apply (Hempty NONE_HAS_NO_SPLIT).
Defined.

(** ** The three market lists of the page *)

(** X19. The page shows every market in exactly one of its three lists:
    watchlist markets asking at most 68, watchlist markets asking more,
    and markets with neither team on the watchlist. *)
Theorem market_lists_partition (watchlist : gset string)
    (markets : list market) :
  Page.watchlist_green watchlist markets
    ++ Page.watchlist_yellow watchlist markets
    ++ Page.non_watchlist watchlist markets ≡ₚ markets ∧
  (∀ m, m ∈ Page.watchlist_green watchlist markets ↔
        m ∈ markets ∧ Page.on_watchlist_market watchlist m = true
        ∧ no_ask m ≤ 68) ∧
  (∀ m, m ∈ Page.watchlist_yellow watchlist markets ↔
        m ∈ markets ∧ Page.on_watchlist_market watchlist m = true
        ∧ 68 < no_ask m) ∧
  (∀ m, m ∈ Page.non_watchlist watchlist markets ↔
        m ∈ markets ∧ Page.on_watchlist_market watchlist m = false).
Proof.
  unfold Page.watchlist_green, Page.watchlist_yellow, Page.non_watchlist,
    Page.watchlist_markets.
  assert (∀ m, (on_watchlist watchlist (away_team m) = false
                ∧ on_watchlist watchlist (home_team m) = false)
               ↔ ¬ Page.on_watchlist_market watchlist m = true) as Hnon.
  { intros m. unfold Page.on_watchlist_market.
    destruct (on_watchlist watchlist (away_team m)),
      (on_watchlist watchlist (home_team m)); simpl; intuition congruence. }
  split_and!.
  - rewrite (list_filter_iff _ _ _ Hnon).
    rewrite (list_filter_iff (λ m, 68 < no_ask m) (λ m, ¬ no_ask m ≤ 68))
      by (intros m; lia).
    rewrite app_assoc, filter_app_complement. apply filter_app_complement.
  - intros m. rewrite !list_elem_of_filter. tauto.
  - intros m. rewrite !list_elem_of_filter. tauto.
  - intros m. rewrite list_elem_of_filter, Hnon.
    destruct (Page.on_watchlist_market watchlist m); intuition congruence.
Qed.

(** ** Team names *)

Lemma dict_get_cases (d : list (string * string)) (k dflt : string) :
  PyStr.dict_get d k dflt = dflt ∨ PyStr.dict_get d k dflt ∈ d.*2.
Proof.
  induction d as [|[k' v] d IH]; simpl; [by left|].
  case_decide; [right; left|].
  destruct IH as [IH|IH]; [by left | right; by right].
Qed.

Lemma dict_get_missing (d : list (string * string)) (k dflt : string) :
  k ∉ d.*1 → PyStr.dict_get d k dflt = dflt.
Proof.
  induction d as [|[k' v] d IH]; simpl; [done|].
  intros Hk. apply not_elem_of_cons in Hk as [Hne Hk].
  rewrite decide_False by done. by apply IH.
Qed.

(** Every short name and every value of the table is left alone. *)
Lemma normalize_team_name_values :
  Forall (λ v, normalize_team_name v = v) mappings.*2.
Proof. apply (bool_decide_unpack _). by vm_compute. Qed.

Lemma normalize_team_name_short (name : string) :
  (String.length name ≤ 3)%nat → normalize_team_name name = name.
Proof.
  intros Hlen. apply dict_get_missing. intros Hin.
  assert (Forall (λ k, 3 < String.length k)%nat mappings.*1) as Hkeys
    by (apply (bool_decide_unpack _); by vm_compute).
  eapply Forall_forall in Hkeys; [|exact Hin]. lia.
Qed.

(** X20. [normalize_team_name] is idempotent: a name it returns is returned
    unchanged when normalized again. What it returns is its input or
    one of the short names of its table. *)
Theorem normalize_team_name_idempotent (name : string) :
  normalize_team_name (normalize_team_name name) = normalize_team_name name ∧
  (normalize_team_name name = name ∨ normalize_team_name name ∈ mappings.*2).
Proof.
  pose proof (dict_get_cases mappings name name) as Hcases.
  fold (normalize_team_name name) in Hcases. split; [|done].
  destruct Hcases as [Hsame|Hvalue].
  - by rewrite !Hsame.
  - pose proof normalize_team_name_values as Hvalues.
    by eapply Forall_forall in Hvalues.
Qed.

Lemma substring_length_le (n : nat) (s : string) :
  (String.length (String.substring 0 n s) ≤ n)%nat.
Proof.
  revert s. induction n as [|n IH]; intros [|c s]; simpl; try lia.
  specialize (IH s). lia.
Qed.

(** X21. [parse_teams_from_ticker] gives no team for a code shorter than 12
    characters and two teams otherwise. Each team is a short name of
    the [normalize_team_name] table or the raw three characters of the
    code, and either way [normalize_team_name] leaves it unchanged: the
    market's teams are in the form the live-score keys use. *)
Theorem parse_teams_from_ticker_names (code : string) :
  ((String.length code < 12)%nat →
     parse_teams_from_ticker code = (None, None)) ∧
  ((12 ≤ String.length code)%nat →
     ∃ away home,
       parse_teams_from_ticker code = (Some away, Some home) ∧
       (away ∈ mappings.*2 ∨ away = PyStr.slice 0 3 (PyStr.slice_from 7 code)) ∧
       (home ∈ mappings.*2 ∨ home = PyStr.slice 3 6 (PyStr.slice_from 7 code)) ∧
       normalize_team_name away = away ∧ normalize_team_name home = home).
Proof.
  unfold parse_teams_from_ticker. split.
  - intros Hlen. by rewrite (proj2 (Nat.ltb_lt _ _) Hlen).
  - intros Hlen. rewrite (proj2 (Nat.ltb_ge _ _) Hlen).
    assert (Forall (λ v, v ∈ mappings.*2) TICKER_ABBREVS.*2) as Hcanon
      by (apply (bool_decide_unpack _); by vm_compute).
    assert (∀ k raw, (String.length raw ≤ 3)%nat →
              let team := PyStr.dict_get TICKER_ABBREVS k raw in
              (team ∈ mappings.*2 ∨ team = raw)
              ∧ normalize_team_name team = team) as Hteam.
    { intros k raw Hraw team. subst team.
      destruct (dict_get_cases TICKER_ABBREVS k raw) as [-> | Hvalue].
      - split; [by right | by apply normalize_team_name_short].
      - eapply Forall_forall in Hcanon; [|exact Hvalue]. split; [by left|].
        pose proof normalize_team_name_values as Hvalues.
        by eapply Forall_forall in Hvalues. }
    eexists _, _. split; [reflexivity|].
    destruct (Hteam (PyStr.upper (PyStr.slice 0 3 (PyStr.slice_from 7 code)))
                (PyStr.slice 0 3 (PyStr.slice_from 7 code))) as [Ha1 Ha2];
      [apply substring_length_le|].
    destruct (Hteam (PyStr.upper (PyStr.slice 3 6 (PyStr.slice_from 7 code)))
                (PyStr.slice 3 6 (PyStr.slice_from 7 code))) as [Hh1 Hh2].
    { unfold PyStr.slice. simpl Nat.sub.
      generalize (PyStr.slice_from 7 code). intros [|? [|? [|? s]]]; simpl;
        try lia; try (destruct s; simpl; lia).
      apply substring_length_le. }
    done.
Qed.

Lemma parse_teams_from_ticker_names_witness :
  parse_teams_from_ticker "26JAN15BOSMIA" = (Some "Boston", Some "Miami") ∧
  normalize_team_name "Boston" = "Boston" ∧
  parse_teams_from_ticker "26JAN15BOS" = (None, None).
Proof.
  destruct (parse_teams_from_ticker_names "26JAN15BOSMIA") as [_ Hlong].
  destruct (parse_teams_from_ticker_names "26JAN15BOS") as [Hshort _].
  destruct Hlong as (away & home & Hparse & _ & _ & Haway & _); [simpl; lia|].
  split_and!.
  - reflexivity.
  - vm_compute in Hparse. injection Hparse as <- <-. exact Haway.
  - apply Hshort. simpl. lia.
Defined.

Lemma record_price_ascending_witness :
  Tracker.ascending (Tracker.history_of "T1" Tracker.scenario_state).
Proof.
  apply (record_price_ascending "T1" 67 31000000
           (Tracker.record_price "T1" 60 0 Tracker.fresh_session)).
  - replace (Tracker.history_of "T1"
               (Tracker.record_price "T1" 60 0 Tracker.fresh_session))
      with [(0, 60)] by (vm_compute; reflexivity).
    unfold Tracker.ascending. repeat constructor.
  - replace (Tracker.history_of "T1"
               (Tracker.record_price "T1" 60 0 Tracker.fresh_session))
      with [(0, 60)] by (vm_compute; reflexivity).
    repeat constructor. simpl. lia.
Defined.
